(** * db-manager: the connection registry and its IPC handlers

    A shallow embedding of [src/main/main.js]: the registry [dbConnections]
    and the handlers registered with [ipcMain.handle] for the channels
    connect-database, list-databases, use-database, list-tables,
    get-table-schema, execute-query, get-database-schema and
    close-connection.

    The three native clients (mysql2/promise, pg, sqlite3) are outside the
    program; the handlers are written once over the calls they make
    ([event]) and interpreted against any [Driver].  [Engine] is a reference
    driver that answers the catalog statements the handlers send.

    Left out: the [console.error] line of each catch clause, which has no
    effect on what a handler returns, and the handlers for profiles,
    exports and nl-to-sql, which do not touch the registry. *)

From Stdlib Require Import Ascii.
From stdpp Require Import gmap strings list pretty sorting.

Open Scope string_scope.

(** ** JavaScript values *)

Inductive jsval : Type :=
| VUndefined
| VNull
| VBool (b : bool)
| VNaN
| VNum (n : Z)
| VStr (s : string).

Global Instance jsval_eq_dec : EqDecision jsval.
Proof. solve_decision. Defined.

(** [a === b] *)
Definition strict_eq (a b : jsval) : bool :=
  match a with
  | VNaN => false
  | _ => bool_decide (a = b)
  end.

(** ToBoolean, as used by [if (x)] and [!x]. *)
Definition truthy (v : jsval) : bool :=
  match v with
  | VUndefined | VNull | VNaN => false
  | VBool b => b
  | VNum n => negb (n =? 0)%Z
  | VStr s => negb (String.eqb s "")
  end.

(** ToString, as used by template literals. *)
Definition to_string (v : jsval) : string :=
  match v with
  | VUndefined => "undefined"
  | VNull => "null"
  | VBool true => "true"
  | VBool false => "false"
  | VNaN => "NaN"
  | VNum n => pretty n
  | VStr s => s
  end.

(** A plain object: its own properties in insertion order. *)
Definition jsobj : Type := list (string * jsval).

(** [o.k] *)
Fixpoint get_prop (o : jsobj) (k : string) : jsval :=
  match o with
  | [] => VUndefined
  | (k', v) :: o' => if String.eqb k' k then v else get_prop o' k
  end.

(** [o.k = v]: an existing property keeps its position. *)
Fixpoint set_prop (o : jsobj) (k : string) (v : jsval) : jsobj :=
  match o with
  | [] => [(k, v)]
  | (k', v') :: o' => if String.eqb k' k then (k', v) :: o' else (k', v') :: set_prop o' k v
  end.

(** [Object.keys(o)] and [Object.values(o)] *)
Definition keys (o : jsobj) : list string := map fst o.
Definition values (o : jsobj) : list jsval := map snd o.

(** [a[0]] on an array of values. *)
Definition first (a : list jsval) : jsval :=
  match a with
  | [] => VUndefined
  | v :: _ => v
  end.

(** [a.includes(v)] (SameValueZero: NaN is found). *)
Definition includes (a : list jsval) (v : jsval) : bool :=
  existsb (fun x => bool_decide (x = v)) a.

(** ** Errors and handler results *)

Inductive js_error : Type :=
| TypeError (m : string)
| Error (m : string).

(** [error.message] *)
Definition message (e : js_error) : string :=
  match e with
  | TypeError m => m
  | Error m => m
  end.

(** What every handler returns: [{ success: true, ... }] or
    [{ success: false, error }]. *)
Inductive result (A : Type) : Type :=
| Success (payload : A)
| Failure (error : string).
Arguments Success {A} payload.
Arguments Failure {A} error.

Definition is_success {A} (r : result A) : bool :=
  match r with
  | Success _ => true
  | Failure _ => false
  end.

(** ** The registry *)

(** A native connection object (mysql2 connection, pg pool or sqlite3
    database) is known to the program by reference only. *)
Definition conn : Type := nat.

(** [{ connection, dbType }] *)
Record entry : Type := Entry { connection : conn; dbType : string }.

Global Instance entry_eq_dec : EqDecision entry.
Proof. solve_decision. Defined.

(** [dbConnections] is created as [{}], so a key it does not own is looked
    up on [Object.prototype]. *)
Definition object_prototype_keys : list string :=
  [ "constructor"; "__defineGetter__"; "__defineSetter__"; "hasOwnProperty";
    "__lookupGetter__"; "__lookupSetter__"; "isPrototypeOf";
    "propertyIsEnumerable"; "toString"; "valueOf"; "__proto__";
    "toLocaleString" ].

Definition is_prototype_key (k : string) : bool :=
  existsb (String.eqb k) object_prototype_keys.

(** The value of [dbConnections[connectionId]]. *)
Inductive lookup_result : Type :=
| Undefined
| Own (e : entry)
| Inherited (c : option conn).

(** The machine state: the registry's own properties, the [connection]
    property an assignment may have left on a member of [Object.prototype]
    (key [__proto__] stands for [Object.prototype] itself), and the world
    of the native clients. *)
Record state (W : Type) : Type := State {
  dbConnections : gmap string entry;
  inherited_connection : gmap string conn;
  world : W
}.
Arguments State {W}.
Arguments dbConnections {W}.
Arguments inherited_connection {W}.
Arguments world {W}.

Definition lookup_connection {W} (s : state W) (id : string) : lookup_result :=
  match dbConnections s !! id with
  | Some e => Own e
  | None =>
      if is_prototype_key id then
        Inherited (match inherited_connection s !! id with
                   | Some c => Some c
                   | None => inherited_connection s !! "__proto__"
                   end)
      else Undefined
  end.

(** Engine messages (V8) of the two TypeErrors the handlers can raise on
    the registry. *)
Definition destructure_undefined : string :=
  "Cannot destructure property 'connection' of 'dbConnections[connectionId]' as it is undefined.".
Definition set_on_undefined : string :=
  "Cannot set properties of undefined (setting 'connection')".
Definition read_of_undefined (p : string) : string :=
  "Cannot read properties of undefined (reading '" ++ p ++ "')".

(** ** The native clients *)

(** The calls the handlers make on the runtime and on the three client
    libraries.  Every call may change the world and may fail with an
    error object (a rejected promise, a callback's [err], a thrown
    constructor). *)
Record Driver (W : Type) : Type := {
  (** [Date.now()] *)
  Date_now : W -> Z;
  (** [parseInt(port)] *)
  parseInt : string -> jsval;
  (** [store.set(key, value)]: [Store.save] swallows its own errors. *)
  store_set : string -> jsobj -> W -> W;
  (** [mysql.createConnection(config)] *)
  mysql_createConnection : jsobj -> W -> (js_error + conn) * W;
  (** [const [rows] = await connection.query(sql)] *)
  mysql_query : conn -> string -> W -> (js_error + list jsobj) * W;
  (** [connection.end()] on a mysql2 connection *)
  mysql_end : conn -> W -> (js_error + unit) * W;
  (** [new Pool(config)] *)
  Pool_new : jsobj -> W -> (js_error + conn) * W;
  (** [connection.options] on a pool *)
  Pool_options : conn -> W -> jsobj;
  (** [(await connection.query(sql, params)).rows] *)
  Pool_query : conn -> string -> list jsval -> W -> (js_error + list jsobj) * W;
  (** [connection.end()] on a pool *)
  Pool_end : conn -> W -> (js_error + unit) * W;
  (** [new sqlite3.Database(path)] *)
  Database_new : string -> W -> (js_error + conn) * W;
  (** [connection.all(sql, (err, rows) => ...)] *)
  Database_all : conn -> string -> W -> (js_error + list jsobj) * W;
  (** [connection.close(err => ...)] *)
  Database_close : conn -> W -> (js_error + unit) * W
}.
Arguments Date_now {W}.
Arguments parseInt {W}.
Arguments store_set {W}.
Arguments mysql_createConnection {W}.
Arguments mysql_query {W}.
Arguments mysql_end {W}.
Arguments Pool_new {W}.
Arguments Pool_options {W}.
Arguments Pool_query {W}.
Arguments Pool_end {W}.
Arguments Database_new {W}.
Arguments Database_all {W}.
Arguments Database_close {W}.

(** ** Handler programs *)

(** One constructor per effectful expression of the handlers; the index is
    the type of the value the expression yields. *)
Inductive event : Type -> Type :=
| DateNow : event Z
| ParseInt (port : string) : event jsval
| StoreSet (key : string) (value : jsobj) : event unit
(* the registry *)
| Lookup (connectionId : string) : event lookup_result
| Assign (connectionId : string) (e : entry) : event unit
| AssignConnection (connectionId : string) (c : conn) : event unit
| Delete (connectionId : string) : event unit
(* mysql2/promise *)
| MysqlCreateConnection (config : jsobj) : event conn
| MysqlQuery (c : conn) (sql : string) : event (list jsobj)
| MysqlEnd (c : conn) : event unit
(* pg *)
| PoolNew (config : jsobj) : event conn
| PoolOptions (c : conn) : event jsobj
| PoolQuery (c : conn) (sql : string) (params : list jsval) : event (list jsobj)
| PoolEnd (c : conn) : event unit
(* sqlite3 *)
| DatabaseNew (path : string) : event conn
| DatabaseAll (c : conn) (sql : string) : event (list jsobj)
| DatabaseClose (c : conn) : event unit.

(** The expressions the source puts under [await]: the handler is suspended
    there and other handlers may run. *)
Definition is_await {X} (ev : event X) : bool :=
  match ev with
  | MysqlCreateConnection _ | MysqlQuery _ _ | MysqlEnd _
  | PoolQuery _ _ _ | PoolEnd _
  | DatabaseAll _ _ | DatabaseClose _ => true
  | _ => false
  end.

Inductive prog (A : Type) : Type :=
| Ret (a : A)
| Throw (e : js_error)
| Do {X : Type} (ev : event X) (k : js_error + X -> prog A).
Arguments Ret {A} a.
Arguments Throw {A} e.
Arguments Do {A X} ev k.

Fixpoint bind {A B} (p : prog A) (f : A -> prog B) : prog B :=
  match p with
  | Ret a => f a
  | Throw e => Throw e
  | Do ev k => Do ev (fun r => bind (k r) f)
  end.

(** [try { p } catch (error) { h error }] *)
Fixpoint try_catch {A} (p : prog A) (h : js_error -> prog A) : prog A :=
  match p with
  | Ret a => Ret a
  | Throw e => h e
  | Do ev k => Do ev (fun r => try_catch (k r) h)
  end.

(** Evaluate an effectful expression; its failure is thrown. *)
Definition perform {X} (ev : event X) : prog X :=
  Do ev (fun r => match r with inl e => Throw e | inr x => Ret x end).

Notation "'let!' x ':=' p 'in' q" := (bind p (fun x => q))
  (at level 10, x name, p at level 100, q at level 200).
Notation "'exec!' p 'in' q" := (bind p (fun _ => q))
  (at level 10, p at level 100, q at level 200).

(** [for (const x of xs) { acc = body x acc }] *)
Fixpoint for_of {A B} (xs : list A) (body : A -> B -> prog B) (acc : B) : prog B :=
  match xs with
  | [] => Ret acc
  | x :: xs' => let! acc' := body x acc in for_of xs' body acc'
  end.

(** ** Running a program against a driver *)

(** A handler invocation: not yet started, suspended at an [await], or
    settled with its return value or an uncaught error. *)
Inductive task (A : Type) : Type :=
| Pending (p : prog A)
| Suspended (p : prog A)
| Settled (r : js_error + A).
Arguments Pending {A} p.
Arguments Suspended {A} p.
Arguments Settled {A} r.

(** Two invocations in flight on the event loop.  A turn lets one of them
    run to its next suspension; the loop takes turns in any order. *)
Record loop (W A B : Type) : Type := Loop {
  first_task : task A;
  second_task : task B;
  machine : state W
}.
Arguments Loop {W A B}.
Arguments first_task {W A B}.
Arguments second_task {W A B}.
Arguments machine {W A B}.

Inductive turn : Type := First | Second.

Section Run.
Context {W : Type} (D : Driver W).

Definition with_world (s : state W) (w : W) : state W :=
  State (dbConnections s) (inherited_connection s) w.

Definition lift {X} (r : (js_error + X) * W) (s : state W) : (js_error + X) * state W :=
  (fst r, with_world s (snd r)).

Definition handle {X} (ev : event X) (s : state W) : (js_error + X) * state W :=
  match ev in event X return (js_error + X) * state W with
  | DateNow => (inr (Date_now D (world s)), s)
  | ParseInt port => (inr (parseInt D port), s)
  | StoreSet key value => (inr tt, with_world s (store_set D key value (world s)))
  | Lookup id => (inr (lookup_connection s id), s)
  | Assign id e =>
      (* the one assignment in the source stores under a decimal numeral,
         which becomes an own property *)
      (inr tt, State (<[id := e]> (dbConnections s)) (inherited_connection s) (world s))
  | AssignConnection id c =>
      match lookup_connection s id with
      | Own e =>
          (inr tt, State (<[id := Entry c (dbType e)]> (dbConnections s))
                         (inherited_connection s) (world s))
      | Inherited _ =>
          (inr tt, State (dbConnections s) (<[id := c]> (inherited_connection s)) (world s))
      | Undefined => (inl (TypeError set_on_undefined), s)
      end
  | Delete id => (inr tt, State (delete id (dbConnections s)) (inherited_connection s) (world s))
  | MysqlCreateConnection config => lift (mysql_createConnection D config (world s)) s
  | MysqlQuery c sql => lift (mysql_query D c sql (world s)) s
  | MysqlEnd c => lift (mysql_end D c (world s)) s
  | PoolNew config => lift (Pool_new D config (world s)) s
  | PoolOptions c => (inr (Pool_options D c (world s)), s)
  | PoolQuery c sql params => lift (Pool_query D c sql params (world s)) s
  | PoolEnd c => lift (Pool_end D c (world s)) s
  | DatabaseNew path => lift (Database_new D path (world s)) s
  | DatabaseAll c sql => lift (Database_all D c sql (world s)) s
  | DatabaseClose c => lift (Database_close D c (world s)) s
  end.

(** A handler run to completion with nothing else scheduled in between. *)
Fixpoint run {A} (p : prog A) (s : state W) : (js_error + A) * state W :=
  match p with
  | Ret a => (inr a, s)
  | Throw e => (inl e, s)
  | Do ev k => let r := handle ev s in run (k (fst r)) (snd r)
  end.

(** A handler run up to its next suspension: through the call under the
    next [await], whose outcome is fixed when the call is made. *)
Fixpoint advance {A} (p : prog A) (s : state W) : task A * state W :=
  match p with
  | Ret a => (Settled (inr a), s)
  | Throw e => (Settled (inl e), s)
  | Do ev k =>
      let r := handle ev s in
      if is_await ev then (Suspended (k (fst r)), snd r) else advance (k (fst r)) (snd r)
  end.

Definition resume {A} (t : task A) (s : state W) : task A * state W :=
  match t with
  | Pending p | Suspended p => advance p s
  | Settled _ => (t, s)
  end.

Definition step {A B} (l : loop W A B) (t : turn) : loop W A B :=
  match t with
  | First =>
      let r := resume (first_task l) (machine l) in Loop (fst r) (second_task l) (snd r)
  | Second =>
      let r := resume (second_task l) (machine l) in Loop (first_task l) (fst r) (snd r)
  end.

Definition schedule {A B} (turns : list turn) (l : loop W A B) : loop W A B :=
  fold_left step turns l.
End Run.

(** An invocation is in progress once it has started and until it settles. *)
Definition in_progress {A} (t : task A) : bool :=
  match t with
  | Suspended _ => true
  | _ => false
  end.

Definition uncaught {A} (t : task A) : bool :=
  match t with
  | Settled (inl _) => true
  | _ => false
  end.

Definition returned {A} (t : task A) : bool :=
  match t with
  | Settled (inr _) => true
  | _ => false
  end.

(** ** The handlers of main.js *)

(** [const { connection, dbType } = dbConnections[connectionId];] *)
Definition destructure (v : lookup_result) : prog (option conn * option string) :=
  match v with
  | Undefined => Throw (TypeError destructure_undefined)
  | Own e => Ret (Some (connection e), Some (dbType e))
  | Inherited c => Ret (c, None)
  end.

(** [switch (dbType) { case 'mysql': ... case 'postgresql': ... case
    'sqlite': ... default: ... }] *)
Definition switch {A} (dbType : option string) (mysql postgresql sqlite default : A) : A :=
  match dbType with
  | Some t =>
      if String.eqb t "mysql" then mysql
      else if String.eqb t "postgresql" then postgresql
      else if String.eqb t "sqlite" then sqlite
      else default
  | None => default
  end.

(** The opening lines shared by every handler but connect-database and
    close-connection: resolve the entry, throw when it has no connection. *)
Definition resolve (connectionId : string) : prog (conn * option string) :=
  let! v := perform (Lookup connectionId) in
  let! cd := destructure v in
  match fst cd with
  | None => Throw (Error "Database connection not found")
  | Some c => Ret (c, snd cd)
  end.

(** [catch (error) { return { success: false, error: error.message }; }] *)
Definition report {A} (error : js_error) : prog (result A) :=
  Ret (Failure (message error)).

Record connectionInfo : Type := {
  info_dbType : string;
  host : string;
  port : string;
  username : string;
  password : string;
  rememberCredentials : bool
}.

Definition info_object (i : connectionInfo) : jsobj :=
  [ ("dbType", VStr (info_dbType i)); ("host", VStr (host i)); ("port", VStr (port i));
    ("username", VStr (username i)); ("password", VStr (password i));
    ("rememberCredentials", VBool (rememberCredentials i)) ].

(** [{ host, port: parseInt(port), user: username, password }] *)
Definition client_config (i : connectionInfo) : prog jsobj :=
  let! p := perform (ParseInt (port i)) in
  Ret [ ("host", VStr (host i)); ("port", p);
        ("user", VStr (username i)); ("password", VStr (password i)) ].

(** connect-database *)
Definition connect_database (i : connectionInfo) : prog (result string) :=
  try_catch
    (exec! (if rememberCredentials i
            then perform (StoreSet "dbCredentials" (info_object i))
            else Ret tt) in
     let! connection :=
       switch (Some (info_dbType i))
         (let! config := client_config i in perform (MysqlCreateConnection config))
         (let! config := client_config i in perform (PoolNew config))
         (perform (DatabaseNew (host i)))
         (Throw (Error ("Unsupported database type: " ++ info_dbType i))) in
     let! now := perform DateNow in
     let connectionId := pretty now in
     exec! perform (Assign connectionId (Entry connection (info_dbType i))) in
     Ret (Success connectionId))
    report.

(** list-databases *)
Definition list_databases (connectionId : string) : prog (result (list jsval)) :=
  try_catch
    (let! cd := resolve connectionId in
     let connection := fst cd in
     let! databases :=
       switch (snd cd)
         (let! rows := perform (MysqlQuery connection "SHOW DATABASES") in
          Ret (map (fun row => get_prop row "Database") rows))
         (let! rows := perform (PoolQuery connection
                 "SELECT datname FROM pg_database WHERE datistemplate = false" []) in
          Ret (map (fun row => get_prop row "datname") rows))
         (Ret [VStr "main"])
         (Ret []) in
     Ret (Success databases))
    report.

(** use-database *)
Definition use_database (connectionId database : string) : prog (result unit) :=
  try_catch
    (let! cd := resolve connectionId in
     let connection := fst cd in
     exec! switch (snd cd)
         (exec! perform (MysqlQuery connection ("USE `" ++ database ++ "`")) in Ret tt)
         (let! config := perform (PoolOptions connection) in
          let! newConnection := perform (PoolNew (set_prop config "database" (VStr database))) in
          exec! perform (PoolEnd connection) in
          perform (AssignConnection connectionId newConnection))
         (Ret tt)
         (Ret tt) in
     Ret (Success tt))
    report.

Definition sqlite_tables_sql : string :=
  "SELECT name FROM sqlite_master WHERE type='table' AND name NOT LIKE 'sqlite_%'".

(** list-tables *)
Definition list_tables (connectionId : string) : prog (result (list jsval)) :=
  try_catch
    (let! cd := resolve connectionId in
     let connection := fst cd in
     let! tables :=
       switch (snd cd)
         (let! rows := perform (MysqlQuery connection "SHOW TABLES") in
          Ret (map (fun row => first (values row)) rows))
         (let! rows := perform (PoolQuery connection
                 "SELECT table_name FROM information_schema.tables WHERE table_schema = 'public'" []) in
          Ret (map (fun row => get_prop row "table_name") rows))
         (let! rows := perform (DatabaseAll connection sqlite_tables_sql) in
          Ret (map (fun row => get_prop row "name") rows))
         (Ret []) in
     Ret (Success tables))
    report.

(** get-table-schema, PostgreSQL: the columns of a table. *)
Definition columns_sql : string :=
  "SELECT column_name, data_type, is_nullable, column_default 
           FROM information_schema.columns 
           WHERE table_name = $1 
           ORDER BY ordinal_position".

(** get-database-schema, PostgreSQL: [tableQuery]. *)
Definition tableQuery : string :=
  "
          SELECT 
            table_name 
          FROM 
            information_schema.tables 
          WHERE 
            table_schema = 'public' AND 
            table_type = 'BASE TABLE'
        ".

(** get-database-schema, PostgreSQL: [columnQuery]. *)
Definition columnQuery : string :=
  "
            SELECT 
              column_name, 
              data_type, 
              is_nullable, 
              column_default,
              character_maximum_length
            FROM 
              information_schema.columns 
            WHERE 
              table_schema = 'public' AND 
              table_name = $1
            ORDER BY 
              ordinal_position
          ".

(** get-database-schema, PostgreSQL: [pkQuery]. *)
Definition pkQuery : string :=
  "
            SELECT 
              kcu.column_name 
            FROM 
              information_schema.table_constraints tc
              JOIN information_schema.key_column_usage kcu
                ON tc.constraint_name = kcu.constraint_name
            WHERE 
              tc.constraint_type = 'PRIMARY KEY' AND
              tc.table_schema = 'public' AND
              tc.table_name = $1
          ".

(** get-table-schema: the descriptor built from one catalog row. *)
Definition mysql_column (row : jsobj) : jsobj :=
  [ ("name", get_prop row "Field");
    ("type", get_prop row "Type");
    ("nullable", VBool (strict_eq (get_prop row "Null") (VStr "YES")));
    ("key", get_prop row "Key");
    ("default", get_prop row "Default");
    ("extra", get_prop row "Extra") ].

Definition postgresql_column (row : jsobj) : jsobj :=
  [ ("name", get_prop row "column_name");
    ("type", get_prop row "data_type");
    ("nullable", VBool (strict_eq (get_prop row "is_nullable") (VStr "YES")));
    ("default", get_prop row "column_default") ].

Definition sqlite_column (row : jsobj) : jsobj :=
  [ ("name", get_prop row "name");
    ("type", get_prop row "type");
    ("nullable", VBool (strict_eq (get_prop row "notnull") (VNum 0)));
    ("default", get_prop row "dflt_value");
    ("pk", VBool (strict_eq (get_prop row "pk") (VNum 1))) ].

(** get-table-schema *)
Definition get_table_schema (connectionId table : string) : prog (result (list jsobj)) :=
  try_catch
    (let! cd := resolve connectionId in
     let connection := fst cd in
     let! columns :=
       switch (snd cd)
         (let! rows := perform (MysqlQuery connection ("DESCRIBE `" ++ table ++ "`")) in
          Ret (map mysql_column rows))
         (let! rows := perform (PoolQuery connection columns_sql [VStr table]) in
          Ret (map postgresql_column rows))
         (let! rows := perform (DatabaseAll connection ("PRAGMA table_info(" ++ table ++ ")")) in
          Ret (map sqlite_column rows))
         (Ret []) in
     Ret (Success columns))
    report.

(** execute-query.  [let results;] stays undefined ([None]) when no case
    of the switch applies. *)
Definition execute_query (connectionId query : string)
  : prog (result (option (list jsobj))) :=
  try_catch
    (let! cd := resolve connectionId in
     let connection := fst cd in
     let! results :=
       switch (snd cd)
         (let! rows := perform (MysqlQuery connection query) in Ret (Some rows))
         (let! rows := perform (PoolQuery connection query []) in Ret (Some rows))
         (let! rows := perform (DatabaseAll connection query) in Ret (Some rows))
         (Ret None) in
     Ret (Success results))
    report.

(** The line feed of ['\n']. *)
Definition nl : string := String (Ascii.ascii_of_nat 10) "".

Definition when (b : bool) (s : string) : string := if b then s else "".

(** get-database-schema: the text appended for one column (the body of
    each [forEach]). *)
Definition mysql_column_text (col : jsobj) : string :=
  "  - " ++ to_string (get_prop col "Field") ++ " (" ++ to_string (get_prop col "Type") ++ ")"
  ++ when (strict_eq (get_prop col "Key") (VStr "PRI")) " PRIMARY KEY"
  ++ when (strict_eq (get_prop col "Key") (VStr "UNI")) " UNIQUE"
  ++ when (strict_eq (get_prop col "Key") (VStr "MUL")) " INDEX"
  ++ when (strict_eq (get_prop col "Extra") (VStr "auto_increment")) " AUTO_INCREMENT"
  ++ when (strict_eq (get_prop col "Null") (VStr "NO")) " NOT NULL"
  ++ when (negb (strict_eq (get_prop col "Default") VNull))
          (" DEFAULT " ++ to_string (get_prop col "Default"))
  ++ nl.

Definition postgresql_column_text (primaryKeys : list jsval) (col : jsobj) : string :=
  let dataType :=
    to_string (get_prop col "data_type")
    ++ when (truthy (get_prop col "character_maximum_length"))
            ("(" ++ to_string (get_prop col "character_maximum_length") ++ ")") in
  "  - " ++ to_string (get_prop col "column_name") ++ " (" ++ dataType ++ ")"
  ++ when (includes primaryKeys (get_prop col "column_name")) " PRIMARY KEY"
  ++ when (strict_eq (get_prop col "is_nullable") (VStr "NO")) " NOT NULL"
  ++ when (negb (strict_eq (get_prop col "column_default") VNull))
          (" DEFAULT " ++ to_string (get_prop col "column_default"))
  ++ nl.

Definition sqlite_column_text (col : jsobj) : string :=
  "  - " ++ to_string (get_prop col "name") ++ " (" ++ to_string (get_prop col "type") ++ ")"
  ++ when (strict_eq (get_prop col "pk") (VNum 1)) " PRIMARY KEY"
  ++ when (strict_eq (get_prop col "notnull") (VNum 1)) " NOT NULL"
  ++ when (negb (strict_eq (get_prop col "dflt_value") VNull))
          (" DEFAULT " ++ to_string (get_prop col "dflt_value"))
  ++ nl.

(** The text appended for one table. *)
Definition table_text (table : jsval) (lines : list string) : string :=
  "Table: " ++ to_string table ++ nl ++ "Columns:" ++ nl ++ String.concat "" lines ++ nl.

(** [rows[0].db] *)
Definition first_db (rows : list jsobj) : prog jsval :=
  match rows with
  | [] => Throw (TypeError (read_of_undefined "db"))
  | row :: _ => Ret (get_prop row "db")
  end.

(** The body of each of the three [for (const table of ...)] loops. *)
Definition mysql_table (connection : conn) (table : jsval) (schemaInfo : string) : prog string :=
  let! columns := perform (MysqlQuery connection ("DESCRIBE `" ++ to_string table ++ "`")) in
  Ret (schemaInfo ++ table_text table (map mysql_column_text columns)).

Definition postgresql_table (connection : conn) (table : jsval) (schemaInfo : string) : prog string :=
  let! columnResult := perform (PoolQuery connection columnQuery [table]) in
  let! pkResult := perform (PoolQuery connection pkQuery [table]) in
  let primaryKeys := map (fun row => get_prop row "column_name") pkResult in
  Ret (schemaInfo ++ table_text table (map (postgresql_column_text primaryKeys) columnResult)).

Definition sqlite_table (connection : conn) (table : jsval) (schemaInfo : string) : prog string :=
  let! tableInfo := perform (DatabaseAll connection
                               ("PRAGMA table_info(" ++ to_string table ++ ")")) in
  Ret (schemaInfo ++ table_text table (map sqlite_column_text tableInfo)).

(** The payload [{ schema: schemaInfo, dbType: dbType }]. *)
Record schema_payload : Type := { schema : string; schema_dbType : string }.

Definition unsupported (dbType : option string) : string :=
  "Unsupported database type: "
  ++ match dbType with Some t => t | None => "undefined" end.

(** The statements that precede each loop and yield the list it walks. *)
Definition mysql_tables (connection : conn) : prog (list jsval) :=
  let! dbRows := perform (MysqlQuery connection "SELECT DATABASE() as db") in
  let! dbName := first_db dbRows in
  if negb (truthy dbName) then Throw (Error "No database selected") else
  let! tables := perform (MysqlQuery connection "SHOW TABLES") in
  Ret (map (fun row => first (values row)) tables).

Definition postgresql_tables (connection : conn) : prog (list jsval) :=
  let! dbResult := perform (PoolQuery connection "SELECT current_database() as db" []) in
  let! pgDbName := first_db dbResult in
  let! tableResult := perform (PoolQuery connection tableQuery []) in
  Ret (map (fun row => get_prop row "table_name") tableResult).

Definition sqlite_tables (connection : conn) : prog (list jsval) :=
  let! rows := perform (DatabaseAll connection sqlite_tables_sql) in
  Ret (map (fun row => get_prop row "name") rows).

(** [catch (error) { return { success: false, error: error.message ||
    'An error occurred while retrieving the database schema' }; }] *)
Definition report_schema {A} (error : js_error) : prog (result A) :=
  Ret (Failure (if String.eqb (message error) ""
                then "An error occurred while retrieving the database schema"
                else message error)).

(** get-database-schema *)
Definition get_database_schema (connectionId : string) : prog (result schema_payload) :=
  try_catch
    (let! cd := resolve connectionId in
     let connection := fst cd in
     let! schemaInfo :=
       switch (snd cd)
         (let! tableList := mysql_tables connection in
          for_of tableList (mysql_table connection) "")
         (let! pgTables := postgresql_tables connection in
          for_of pgTables (postgresql_table connection) "")
         (let! sqliteTables := sqlite_tables connection in
          for_of sqliteTables (sqlite_table connection) "")
         (Throw (Error (unsupported (snd cd)))) in
     Ret (Success {| schema := schemaInfo;
                     schema_dbType := match snd cd with Some t => t | None => "" end |}))
    report_schema.

(** close-connection: the switch that releases the native connection. *)
Definition release (dbType : option string) (connection : conn) : prog unit :=
  switch dbType
    (perform (MysqlEnd connection))
    (perform (PoolEnd connection))
    (perform (DatabaseClose connection))
    (Ret tt).

(** close-connection *)
Definition close_connection (connectionId : string) : prog (result unit) :=
  try_catch
    (let! v := perform (Lookup connectionId) in
     let! cd := destructure v in
     match fst cd with
     | None => Ret (Success tt) (* Already closed or not found *)
     | Some connection =>
         exec! release (snd cd) connection in
         exec! perform (Delete connectionId) in
         Ret (Success tt)
     end)
    report.

(** renderer.js tells a primary-key column by
    [column.key === 'PRI' || column.pk]. *)
Definition marks_primary_key (column : jsobj) : bool :=
  strict_eq (get_prop column "key") (VStr "PRI") || truthy (get_prop column "pk").

(** ** A reference driver

    The servers and files the clients talk to, reduced to their catalogs,
    with the answers of the three engines to the catalog statements the
    handlers send.  A statement that is not one of those is the caller's
    own SQL and is answered from the table [statements]. *)
Module Engine.

(** [sqlite_master.type]; [information_schema.tables.table_type]. *)
Inductive kind : Type := BaseTable | View | Index.

Global Instance kind_eq_dec : EqDecision kind.
Proof. solve_decision. Defined.

Record column : Type := {
  col_name : string;
  col_type : string;
  col_notnull : bool;
  col_default : option string;
  col_pk : bool
}.

Record relation : Type := {
  rel_schema : string;
  rel_name : string;
  rel_kind : kind;
  rel_columns : list column
}.

(** The state of a native connection object. *)
Inductive native : Type :=
| MysqlConnection (database : option string) (closed : bool)
| PgPool (options : jsobj) (ending : bool)
| SqliteDatabase (path : string) (closed : bool).

Record env : Type := Env {
  clock : Z;
  natives : list native;
  mysql_server : list (string * list relation);
  pg_server : list (string * list relation);
  sqlite_files : list (string * list relation);
  statements : list (string * list jsobj);
  saved : list (string * jsobj)
}.

Definition with_natives (w : env) (ns : list native) : env :=
  Env (clock w) ns (mysql_server w) (pg_server w) (sqlite_files w)
        (statements w) (saved w).

(** Time passes between handler invocations. *)
Definition tick (ms : Z) (w : env) : env :=
  Env (clock w + ms) (natives w) (mysql_server w) (pg_server w) (sqlite_files w)
        (statements w) (saved w).

Fixpoint assoc {A} (k : string) (l : list (string * A)) : option A :=
  match l with
  | [] => None
  | (k', v) :: l' => if String.eqb k' k then Some v else assoc k l'
  end.

(** [unwrap pre post s = Some m] when [s] is [pre ++ m ++ post]. *)
Definition unwrap (pre post s : string) : option string :=
  let n := String.length s in
  let a := String.length pre in
  let b := String.length post in
  if String.prefix pre s && (a + b <=? n)%nat
     && String.eqb (String.substring (n - b) b s) post
  then Some (String.substring a (n - a - b) s)
  else None.

Definition dq : string := String (Ascii.ascii_of_nat 34) "".

Definition opt_str (o : option string) : jsval :=
  match o with
  | Some s => VStr s
  | None => VNull
  end.

Definition yes_no (b : bool) : jsval := VStr (if b then "YES" else "NO").

Definition user_sql (w : env) (sql : string) (syntax : string)
  : (js_error + list jsobj) * env :=
  match assoc sql (statements w) with
  | Some rows => (inr rows, w)
  | None => (inl (Error syntax), w)
  end.

(** *** parseInt, on a port written in decimal digits *)

Definition digit (c : Ascii.ascii) : option Z :=
  let n := Ascii.nat_of_ascii c in
  if (48 <=? n)%nat && (n <=? 57)%nat then Some (Z.of_nat (n - 48)) else None.

Fixpoint digits (s : string) (acc : option Z) : option Z :=
  match s with
  | "" => acc
  | String c s' =>
      match digit c with
      | Some d => digits s' (Some (10 * default 0%Z acc + d)%Z)
      | None => acc
      end
  end.

Definition parse_int (s : string) : jsval :=
  match digits s None with
  | Some n => VNum n
  | None => VNaN
  end.

(** *** MySQL *)

Definition mysql_closed : js_error :=
  Error "Can't add new command when connection is in closed state".

Definition is_listed (r : relation) : bool :=
  bool_decide (rel_kind r = BaseTable) || bool_decide (rel_kind r = View).

Definition describe_row (c : column) : jsobj :=
  [ ("Field", VStr (col_name c)); ("Type", VStr (col_type c));
    ("Null", yes_no (negb (col_notnull c)));
    ("Key", VStr (if col_pk c then "PRI" else ""));
    ("Default", opt_str (col_default c)); ("Extra", VStr "") ].

Definition find_relation (name : string) (rs : list relation) : option relation :=
  List.find (fun r => String.eqb (rel_name r) name && is_listed r) rs.

Definition mysql_statement (c : conn) (current : option string) (sql : string) (w : env)
  : (js_error + list jsobj) * env :=
  if String.eqb sql "SHOW DATABASES" then
    (inr (map (fun d => [("Database", VStr (fst d))]) (mysql_server w)), w)
  else if String.eqb sql "SELECT DATABASE() as db" then
    (inr [[("db", opt_str current)]], w)
  else match unwrap "USE `" "`" sql with
  | Some d =>
      match assoc d (mysql_server w) with
      | Some _ => (inr [], with_natives w (<[c := MysqlConnection (Some d) false]> (natives w)))
      | None => (inl (Error ("Unknown database '" ++ d ++ "'")), w)
      end
  | None =>
  match current ≫= (fun d => assoc d (mysql_server w) ≫= (fun rs => Some (d, rs))) with
  | None =>
      if String.eqb sql "SHOW TABLES" || String.prefix "DESCRIBE `" sql
      then (inl (Error "No database selected"), w)
      else user_sql w sql "You have an error in your SQL syntax"
  | Some (d, rs) =>
      if String.eqb sql "SHOW TABLES" then
        (inr (map (fun r => [("Tables_in_" ++ d, VStr (rel_name r))]) (filter is_listed rs)), w)
      else match unwrap "DESCRIBE `" "`" sql with
      | Some t =>
          match find_relation t rs with
          | Some r => (inr (map describe_row (rel_columns r)), w)
          | None => (inl (Error ("Table '" ++ d ++ "." ++ t ++ "' doesn't exist")), w)
          end
      | None => user_sql w sql "You have an error in your SQL syntax"
      end
  end
  end.

Definition mysql_run (c : conn) (sql : string) (w : env)
  : (js_error + list jsobj) * env :=
  match natives w !! c with
  | Some (MysqlConnection current false) => mysql_statement c current sql w
  | _ => (inl mysql_closed, w)
  end.

Definition mysql_close (c : conn) (w : env) : (js_error + unit) * env :=
  match natives w !! c with
  | Some (MysqlConnection current _) =>
      (inr tt, with_natives w (<[c := MysqlConnection current true]> (natives w)))
  | _ => (inr tt, w)
  end.

(** *** PostgreSQL *)

(** The database a pool's clients connect to: [options.database], by
    default the user's name. *)
Definition pg_database (options : jsobj) : string :=
  match get_prop options "database" with
  | VStr d => d
  | _ => to_string (get_prop options "user")
  end.

Definition in_public (r : relation) : bool := String.eqb (rel_schema r) "public".

Definition columns_row (c : column) : jsobj :=
  [ ("column_name", VStr (col_name c)); ("data_type", VStr (col_type c));
    ("is_nullable", yes_no (negb (col_notnull c)));
    ("column_default", opt_str (col_default c)) ].

Definition columnQuery_row (c : column) : jsobj :=
  (columns_row c ++ [("character_maximum_length", VNull)])%list.

(** [ORDER BY ordinal_position] over the columns of every relation the
    [WHERE] clause selects. *)
Definition ordinal_le (a b : nat * column) : Prop := (a.1 <= b.1)%nat.

Global Instance ordinal_le_dec a b : Decision (ordinal_le a b).
Proof. unfold ordinal_le. apply _. Defined.

Definition by_ordinal_position (rs : list relation) : list column :=
  map snd (merge_sort ordinal_le
             (flat_map (fun r => imap (fun i c => (i, c)) (rel_columns r)) rs)).

Definition pg_statement (d : string) (rs : list relation) (sql : string)
    (params : list jsval) (w : env) : (js_error + list jsobj) * env :=
  if String.eqb sql "SELECT datname FROM pg_database WHERE datistemplate = false" then
    (inr (map (fun db => [("datname", VStr (fst db))]) (pg_server w)), w)
  else if String.eqb sql "SELECT current_database() as db" then
    (inr [[("db", VStr d)]], w)
  else if String.eqb sql
       "SELECT table_name FROM information_schema.tables WHERE table_schema = 'public'" then
    (inr (map (fun r => [("table_name", VStr (rel_name r))])
            (filter (fun r => in_public r && is_listed r) rs)), w)
  else if String.eqb sql tableQuery then
    (inr (map (fun r => [("table_name", VStr (rel_name r))])
            (filter (fun r => in_public r && bool_decide (rel_kind r = BaseTable)) rs)), w)
  else if String.eqb sql columns_sql then
    (inr (map columns_row
            (by_ordinal_position
               (filter (fun r => bool_decide (VStr (rel_name r) = first params) && is_listed r)
                       rs))), w)
  else if String.eqb sql columnQuery then
    (inr (map columnQuery_row
            (by_ordinal_position
               (filter (fun r => in_public r && bool_decide (VStr (rel_name r) = first params)
                                 && is_listed r) rs))), w)
  else if String.eqb sql pkQuery then
    (inr (map (fun c => [("column_name", VStr (col_name c))])
            (filter col_pk
               (flat_map rel_columns
                  (filter (fun r => in_public r && bool_decide (VStr (rel_name r) = first params)
                                    && bool_decide (rel_kind r = BaseTable)) rs)))), w)
  else user_sql w sql "syntax error".

Definition pool_new (config : jsobj) (w : env) : (js_error + conn) * env :=
  (inr (length (natives w)), with_natives w (natives w ++ [PgPool config false])).

Definition pool_options (c : conn) (w : env) : jsobj :=
  match natives w !! c with
  | Some (PgPool options _) => options
  | _ => []
  end.

Definition pool_query (c : conn) (sql : string) (params : list jsval) (w : env)
  : (js_error + list jsobj) * env :=
  match natives w !! c with
  | Some (PgPool options false) =>
      let d := pg_database options in
      match assoc d (pg_server w) with
      | Some rs => pg_statement d rs sql params w
      | None => (inl (Error ("database " ++ dq ++ d ++ dq ++ " does not exist")), w)
      end
  | _ => (inl (Error "Cannot use a pool after calling end on the pool"), w)
  end.

Definition pool_end (c : conn) (w : env) : (js_error + unit) * env :=
  match natives w !! c with
  | Some (PgPool options false) =>
      (inr tt, with_natives w (<[c := PgPool options true]> (natives w)))
  | _ => (inl (Error "Called end on pool more than once"), w)
  end.

(** *** SQLite *)

Definition lower (c : Ascii.ascii) : Ascii.ascii :=
  let n := Ascii.nat_of_ascii c in
  if (65 <=? n)%nat && (n <=? 90)%nat then Ascii.ascii_of_nat (n + 32) else c.

(** [s LIKE p]: [%] matches any run of characters, [_] any single one,
    letters match without regard to case. *)
Fixpoint like (p : string) : string -> bool :=
  match p with
  | "" => fun s => String.eqb s ""
  | String c p' =>
      if Ascii.eqb c "%"%char then
        fix any (s : string) : bool :=
          like p' s || match s with
                       | "" => false
                       | String _ s' => any s'
                       end
      else fun s =>
        match s with
        | "" => false
        | String d s' => (Ascii.eqb c "_"%char || Ascii.eqb (lower c) (lower d)) && like p' s'
        end
  end.

Definition sqlite_type (k : kind) : string :=
  match k with
  | BaseTable => "table"
  | View => "view"
  | Index => "index"
  end.

Definition table_info_row (i : nat) (c : column) : jsobj :=
  [ ("cid", VNum (Z.of_nat i)); ("name", VStr (col_name c)); ("type", VStr (col_type c));
    ("notnull", VNum (if col_notnull c then 1 else 0));
    ("dflt_value", opt_str (col_default c));
    ("pk", VNum (if col_pk c then 1 else 0)) ].

(** The argument of a pragma is written bare: a name that is not a plain
    identifier does not parse. *)
Definition identifier_char (c : Ascii.ascii) : bool :=
  let n := Ascii.nat_of_ascii c in
  (48 <=? n)%nat && (n <=? 57)%nat || (65 <=? n)%nat && (n <=? 90)%nat
  || (97 <=? n)%nat && (n <=? 122)%nat || (n =? 95)%nat.

Definition is_identifier (s : string) : bool :=
  match s with
  | "" => false
  | String c _ =>
      negb ((48 <=? Ascii.nat_of_ascii c)%nat && (Ascii.nat_of_ascii c <=? 57)%nat)
      && forallb identifier_char (String.list_ascii_of_string s)
  end.

Definition sqlite_statement (rs : list relation) (sql : string) (w : env)
  : (js_error + list jsobj) * env :=
  if String.eqb sql sqlite_tables_sql then
    (inr (map (fun r => [("name", VStr (rel_name r))])
            (filter (fun r => String.eqb (sqlite_type (rel_kind r)) "table"
                              && negb (like "sqlite_%" (rel_name r))) rs)), w)
  else match unwrap "PRAGMA table_info(" ")" sql with
  | Some t =>
      if negb (is_identifier t) then (inl (Error "SQLITE_ERROR: syntax error"), w) else
      match find_relation t rs with
      | Some r => (inr (imap table_info_row (rel_columns r)), w)
      | None => (inr [], w)
      end
  | None => user_sql w sql "SQLITE_ERROR: syntax error"
  end.

Definition sqlite_misuse : js_error := Error "SQLITE_MISUSE: Database is closed".

Definition database_new (path : string) (w : env) : (js_error + conn) * env :=
  (inr (length (natives w)), with_natives w (natives w ++ [SqliteDatabase path false])).

Definition database_all (c : conn) (sql : string) (w : env)
  : (js_error + list jsobj) * env :=
  match natives w !! c with
  | Some (SqliteDatabase path false) =>
      sqlite_statement (default [] (assoc path (sqlite_files w))) sql w
  | _ => (inl sqlite_misuse, w)
  end.

Definition database_close (c : conn) (w : env) : (js_error + unit) * env :=
  match natives w !! c with
  | Some (SqliteDatabase path false) =>
      (inr tt, with_natives w (<[c := SqliteDatabase path true]> (natives w)))
  | _ => (inl sqlite_misuse, w)
  end.

(** *** The driver *)

Definition create_connection (config : jsobj) (w : env) : (js_error + conn) * env :=
  (inr (length (natives w)), with_natives w (natives w ++ [MysqlConnection None false])).

Definition store_save (key : string) (value : jsobj) (w : env) : env :=
  Env (clock w) (natives w) (mysql_server w) (pg_server w) (sqlite_files w)
        (statements w) ((key, value) :: saved w).

Definition driver : Driver env :=
  Build_Driver env clock parse_int store_save
    create_connection mysql_run mysql_close
    pool_new pool_options pool_query pool_end
    database_new database_all database_close.
End Engine.

(** ** Fixtures: concrete catalogs, connections and registries *)
Module Fixture.
Import Engine.

Definition users : relation :=
  {| rel_schema := "public"; rel_name := "users"; rel_kind := BaseTable;
     rel_columns :=
       [ {| col_name := "id"; col_type := "integer"; col_notnull := true;
            col_default := None; col_pk := true |};
         {| col_name := "name"; col_type := "text"; col_notnull := false;
            col_default := None; col_pk := false |} ] |}.

Definition active_users : relation :=
  {| rel_schema := "public"; rel_name := "active_users"; rel_kind := View;
     rel_columns :=
       [ {| col_name := "id"; col_type := "integer"; col_notnull := false;
            col_default := None; col_pk := false |} ] |}.

Definition sqlite_sequence : relation :=
  {| rel_schema := "main"; rel_name := "sqlite_sequence"; rel_kind := BaseTable;
     rel_columns := [] |}.

(** A table created as ["order-items"]: a legal quoted name. *)
Definition order_items : relation :=
  {| rel_schema := "main"; rel_name := "order-items"; rel_kind := BaseTable;
     rel_columns :=
       [ {| col_name := "id"; col_type := "INTEGER"; col_notnull := true;
            col_default := None; col_pk := true |} ] |}.

Definition select_one : string := "SELECT 1 AS one".

Definition servers : env :=
  {| clock := 1700000000000;
     natives := [];
     mysql_server := [("shop", [users; active_users])];
     pg_server := [("postgres", [users; active_users])];
     sqlite_files := [("./fixture.db", [users; sqlite_sequence; active_users]);
                      ("./orders.db", [users; order_items])];
     statements := [(select_one, [[("one", VNum 1)]])];
     saved := [] |}.

Definition pg_config : jsobj :=
  [ ("host", VStr "localhost"); ("port", VNum 5432);
    ("user", VStr "postgres"); ("password", VStr "secret") ].

Definition connectionId : string := "1700000000000".

(** No connection was ever opened. *)
Definition fresh : state env := State ∅ ∅ servers.

(** One native connection, registered under [connectionId]. *)
Definition opened (n : native) (dbType : string) : state env :=
  State {[ connectionId := Entry 0 dbType ]} ∅ (with_natives servers [n]).

Definition pg_open : state env := opened (PgPool pg_config false) "postgresql".
Definition pg_ended : state env := opened (PgPool pg_config true) "postgresql".
Definition mysql_open : state env := opened (MysqlConnection (Some "shop") false) "mysql".
Definition sqlite_open : state env := opened (SqliteDatabase "./fixture.db" false) "sqlite".

Definition sqlite_info (path : string) : connectionInfo :=
  {| info_dbType := "sqlite"; host := path; port := ""; username := "";
     password := ""; rememberCredentials := false |}.
End Fixture.

(** ** The descriptor shapes *)




(** ** Programs that leave the registry alone *)

Definition writes_registry {X} (ev : event X) : bool :=
  match ev with
  | Assign _ _ | AssignConnection _ _ | Delete _ => true
  | _ => false
  end.

Inductive read_only {A : Type} : prog A -> Prop :=
| read_only_Ret (a : A) : read_only (Ret a)
| read_only_Throw (e : js_error) : read_only (Throw e)
| read_only_Do {X : Type} (ev : event X) (k : js_error + X -> prog A) :
    writes_registry ev = false ->
    (forall r, read_only (k r)) ->
    read_only (Do ev k).

(** ** The two halves of get-database-schema *)

(** The statements that list the tables and the loop body that describes
    one of them, by [dbType]. *)
Inductive introspects :
  string -> (conn -> prog (list jsval)) -> (conn -> jsval -> string -> prog string) -> Prop :=
| introspects_mysql : introspects "mysql" mysql_tables mysql_table
| introspects_postgresql : introspects "postgresql" postgresql_tables postgresql_table
| introspects_sqlite : introspects "sqlite" sqlite_tables sqlite_table.


(** ** execute-query and use-database in flight together *)

Fixpoint turns_of (t : turn) (turns : list turn) : nat :=
  match turns with
  | [] => 0
  | t' :: turns' =>
      match t, t' with
      | First, First | Second, Second => S (turns_of t turns')
      | _, _ => turns_of t turns'
      end
  end.

Section InFlight.
Context {W : Type} (D : Driver W) (connectionId query database : string).

(** The two invocations, both still to start. *)
Definition in_flight (s : state W) : loop W (result (option (list jsobj))) (result unit) :=
  Loop (Pending (execute_query connectionId query))
       (Pending (use_database connectionId database)) s.

(** What execute-query reports when the pool [c] is sent the query in
    world [w]. *)
Definition answer (c : conn) (w : W) : result (option (list jsobj)) :=
  match fst (Pool_query D c query [] w) with
  | inl e => Failure (message e)
  | inr rows => Success (Some rows)
  end.

(** The registry holds a PostgreSQL entry for the identifier. *)
Definition has_pool (s : state W) : Prop :=
  exists c, dbConnections s !! connectionId = Some (Entry c "postgresql").

(** A suspended program that has nothing left to do but return [r]. *)
Definition resolved {A} (p : prog A) (r : A) : Prop :=
  forall s, advance D p s = (Settled (inr r), s).

(** A suspended program that returns at its next turn and leaves a
    PostgreSQL entry in place. *)
Definition finishing {A} (p : prog A) : Prop :=
  forall s, has_pool s ->
    exists r s', advance D p s = (Settled (inr r), s') /\ has_pool s'.

(** The first invocation after [n] of its turns; [R] holds of what it
    reports. *)
Definition stage1 (R : result (option (list jsobj)) -> Prop) (n : nat)
    (t : task (result (option (list jsobj)))) : Prop :=
  match n, t with
  | 0, _ => t = Pending (execute_query connectionId query)
  | 1, Suspended p => exists r, R r /\ resolved p r
  | S _, Settled (inr r) => R r
  | _, _ => False
  end.

(** The second invocation after [n] of its turns. *)
Definition stage2 (n : nat) (t : task (result unit)) : Prop :=
  match n, t with
  | 0, _ => t = Pending (use_database connectionId database)
  | 1, Suspended p => finishing p
  | S _, Settled (inr _) => True
  | _, _ => False
  end.

Definition invariant (R : result (option (list jsobj)) -> Prop) (a b : nat)
    (l : loop W (result (option (list jsobj))) (result unit)) : Prop :=
  has_pool (machine l) /\ stage1 R a (first_task l) /\ stage2 b (second_task l).
End InFlight.

(** ** What a handler may do to the registry *)


(** A program all of whose effectful expressions pass a test. *)
Inductive every_event {A : Type} (ok : forall X, event X -> bool) : prog A -> Prop :=
| every_event_Ret (a : A) : every_event ok (Ret a)
| every_event_Throw (e : js_error) : every_event ok (Throw e)
| every_event_Do {X : Type} (ev : event X) (k : js_error + X -> prog A) :
    ok X ev = true ->
    (forall r, every_event ok (k r)) ->
    every_event ok (Do ev k).

(** Reads, and the one write [dbConnections[id].connection = c]. *)
Definition reads_or_swaps (id : string) (X : Type) (ev : event X) : bool :=
  match ev with
  | Assign _ _ | Delete _ => false
  | AssignConnection id' _ => String.eqb id' id
  | _ => true
  end.

(** Reads, and writes to the entry of [id] alone, its removal included. *)
Definition touches_only (id : string) (X : Type) (ev : event X) : bool :=
  match ev with
  | Assign _ _ => false
  | Delete id' | AssignConnection id' _ => String.eqb id' id
  | _ => true
  end.

(** The kind each identifier is registered with. *)
Definition kinds (reg : gmap string entry) : gmap string string := dbType <$> reg.

(** ** The shape of the schema text *)


(** ** More fixtures *)
Module Sample.
Import Engine.

(** A request for a kind the handler does not know. *)
Definition oracle_info : connectionInfo :=
  {| info_dbType := "oracle"; host := "db.example"; port := "1521"; username := "scott";
     password := "tiger"; rememberCredentials := true |}.

(** A MySQL connection on which no database has been selected. *)
Definition mysql_unselected : state env :=
  Fixture.opened (MysqlConnection None false) "mysql".

(** A SQLite file with nothing in it. *)
Definition sqlite_empty : state env :=
  Fixture.opened (SqliteDatabase "./empty.db" false) "sqlite".

(** Two connections, under two identifiers. *)
Definition two_open : state env :=
  State {[ "1700000000000" := Entry 0 "postgresql"; "1700000000001" := Entry 1 "sqlite" ]} ∅
        (with_natives Fixture.servers
           [PgPool Fixture.pg_config false; SqliteDatabase "./fixture.db" false]).
End Sample.

(** ** The export handlers of main.js *)

Definition quote_char : ascii := ascii_of_nat 34.
Definition quote : string := String quote_char "".

(** [s.includes(sub)] *)
Fixpoint str_includes (s sub : string) : bool :=
  String.prefix sub s
  || match s with
     | "" => false
     | String _ s' => str_includes s' sub
     end.

(** The global replace of export-to-csv: every quote is doubled. *)
Fixpoint double_quotes (s : string) : string :=
  match s with
  | "" => ""
  | String c s' =>
      if Ascii.eqb c quote_char
      then String quote_char (String quote_char (double_quotes s'))
      else String c (double_quotes s')
  end.

(** export-to-csv: a value with a comma, a quote or a line feed is put
    between quotes, its quotes doubled. *)
Definition csv_text (stringValue : string) : string :=
  if str_includes stringValue "," || str_includes stringValue quote
     || str_includes stringValue nl
  then quote ++ double_quotes stringValue ++ quote
  else stringValue.

Definition csv_value (value : jsval) : string :=
  match value with
  | VNull | VUndefined => ""
  | _ => csv_text (to_string value)
  end.

(** [Object.values(row).map(...).join(',')] *)
Definition csv_row (row : jsobj) : string :=
  String.concat "," (map csv_value (values row)).

(** [csvContent], for [data] whose first row is [first_row]. *)
Definition csv_content (first_row : jsobj) (data : list jsobj) : string :=
  String.concat "," (keys first_row) ++ nl ++ String.concat nl (map csv_row data).

(** The options given to [dialog.showSaveDialog]. *)
Record save_options : Type := {
  title : string;
  defaultPath : jsval;
  filter_name : string;
  filter_extension : string
}.

(** What the export handlers call outside the program: the save dialog,
    the file system and JSON.stringify. *)
Record Shell (F : Type) : Type := {
  (** [(await dialog.showSaveDialog(options)).filePath] *)
  showSaveDialog : save_options -> F -> (js_error + jsval) * F;
  (** [fs.writeFileSync(filePath, content, 'utf8')] *)
  writeFileSync : jsval -> string -> F -> (js_error + unit) * F;
  (** [JSON.stringify(data, null, 2)] *)
  JSON_stringify : list jsobj -> js_error + string
}.
Arguments showSaveDialog {F}.
Arguments writeFileSync {F}.
Arguments JSON_stringify {F}.

(** [a || b] *)
Definition or_else (a b : jsval) : jsval := if truthy a then a else b.

(** The dialogs of export-to-csv and export-to-json. *)
Definition csv_dialog (filename : jsval) : save_options :=
  {| title := "Export to CSV";
     defaultPath := or_else filename (VStr "query_results.csv");
     filter_name := "CSV Files";
     filter_extension := "csv" |}.

Definition json_dialog (filename : jsval) : save_options :=
  {| title := "Export to JSON";
     defaultPath := or_else filename (VStr "query_results.json");
     filter_name := "JSON Files";
     filter_extension := "json" |}.

(** export-to-csv, for [data] an array of rows. *)
Definition export_to_csv {F} (S : Shell F) (data : list jsobj) (filename : jsval) (f : F)
  : result jsval * F :=
  match showSaveDialog S (csv_dialog filename) f with
  | (inl error, f1) => (Failure (message error), f1)
  | (inr filePath, f1) =>
      if negb (truthy filePath) then (Failure "Export cancelled", f1) else
      match data with
      | [] => (Failure "No data to export", f1)
      | first_row :: _ =>
          match writeFileSync S filePath (csv_content first_row data) f1 with
          | (inl error, f2) => (Failure (message error), f2)
          | (inr _, f2) => (Success filePath, f2)
          end
      end
  end.

(** export-to-json, for [data] an array of rows. *)
Definition export_to_json {F} (S : Shell F) (data : list jsobj) (filename : jsval) (f : F)
  : result jsval * F :=
  match showSaveDialog S (json_dialog filename) f with
  | (inl error, f1) => (Failure (message error), f1)
  | (inr filePath, f1) =>
      if negb (truthy filePath) then (Failure "Export cancelled", f1) else
      match data with
      | [] => (Failure "No data to export", f1)
      | _ :: _ =>
          match JSON_stringify S data with
          | inl error => (Failure (message error), f1)
          | inr text =>
              match writeFileSync S filePath text f1 with
              | (inl error, f2) => (Failure (message error), f2)
              | (inr _, f2) => (Success filePath, f2)
              end
          end
      end
  end.

(** How often a character occurs in a string. *)
Fixpoint occurrences (c : ascii) (s : string) : nat :=
  match s with
  | "" => 0
  | String d s' => (if Ascii.eqb d c then 1 else 0) + occurrences c s'
  end.

(** A file system for the examples: the files written so far, and
    whether the user picks a file. *)
Module Desk.
Record files : Type := { chosen : jsval; written : list (string * string) }.

Definition shell : Shell files :=
  {| showSaveDialog := fun _ f => (inr (chosen f), f);
     writeFileSync := fun path content f =>
       (inr tt, {| chosen := chosen f; written := (to_string path, content) :: written f |});
     JSON_stringify := fun _ => inr "[]" |}.
End Desk.

(** ** renderer.js: the statement shortcuts and the disconnect button *)

(** The variables of the page; [None] is [null]. *)
Record page : Type := {
  currentScreen : string;
  currentConnectionId : option string;
  currentDatabase : option string;
  currentTable : option string;
  currentTableSchema : list jsobj
}.

(** Truthiness of a variable that holds [null] or a string. *)
Definition is_set (v : option string) : bool :=
  match v with
  | Some text => truthy (VStr text)
  | None => false
  end.

Definition with_schema (p : page) (columns : list jsobj) : page :=
  {| currentScreen := currentScreen p;
     currentConnectionId := currentConnectionId p;
     currentDatabase := currentDatabase p;
     currentTable := currentTable p;
     currentTableSchema := columns |}.

(** [updateTableSchema]: asks get-table-schema for the current table and
    keeps the columns of a successful answer. *)
Definition updateTableSchema {W} (D : Driver W) (p : page) (s : state W)
  : page * state W :=
  match currentTable p, currentConnectionId p with
  | Some table, Some connectionId =>
      if negb (is_set (currentTable p)) || negb (is_set (currentConnectionId p))
      then (p, s)
      else
        match run D (get_table_schema connectionId table) s with
        | (inr (Success columns), s1) => (with_schema p columns, s1)
        | (_, s1) => (p, s1)
        end
  | _, _ => (p, s)
  end.

(** [array.join(', ')] *)
Definition join (elements : list jsval) : string :=
  String.concat ", "
    (map (fun v => match v with VNull | VUndefined => "" | _ => to_string v end) elements).

Definition getColumnList (p : page) : string :=
  match currentTableSchema p with
  | [] => "column1, column2"
  | columns => join (map (fun col => get_prop col "name") columns)
  end.

(** The callback of [getValuePlaceholders]; [col.type.includes] throws
    when the type is no string. *)
Definition placeholder (col : jsobj) : js_error + string :=
  match get_prop col "type" with
  | VStr type =>
      inr (if str_includes type "varchar" || str_includes type "text"
              || str_includes type "char"
           then "'value'"
           else if str_includes type "int" || str_includes type "float"
                   || str_includes type "double" || str_includes type "decimal"
           then "0"
           else if str_includes type "date" || str_includes type "time"
           then "NOW()"
           else "NULL")
  | VUndefined => inl (TypeError (read_of_undefined "includes"))
  | VNull => inl (TypeError "Cannot read properties of null (reading 'includes')")
  | _ => inl (TypeError "col.type.includes is not a function")
  end.

(** [array.map(f)] for a callback that may throw. *)
Fixpoint map_throwing {A B} (f : A -> js_error + B) (l : list A) : js_error + list B :=
  match l with
  | [] => inr []
  | x :: l' =>
      match f x with
      | inl error => inl error
      | inr y =>
          match map_throwing f l' with
          | inl error => inl error
          | inr ys => inr (y :: ys)
          end
      end
  end.

Definition getValuePlaceholders (p : page) : js_error + string :=
  match currentTableSchema p with
  | [] => inr "value1, value2"
  | columns =>
      match map_throwing placeholder columns with
      | inl error => inl error
      | inr placeholders => inr (String.concat ", " placeholders)
      end
  end.

Definition getPrimaryKeyCondition (p : page) : string :=
  match find marks_primary_key (currentTableSchema p) with
  | Some pkColumn => to_string (get_prop pkColumn "name") ++ " = value"
  | None => "condition"
  end.

(** The click listeners of the shortcut buttons: the text put in the query
    input, the page and the main process afterwards. *)
Definition sql_select_btn {W} (D : Driver W) (p : page) (s : state W)
  : string * (page * state W) :=
  match currentTable p with
  | Some table =>
      if is_set (currentTable p)
      then ("SELECT * FROM " ++ table ++ " LIMIT 100;", updateTableSchema D p s)
      else ("SELECT * FROM table_name LIMIT 100;", (p, s))
  | None => ("SELECT * FROM table_name LIMIT 100;", (p, s))
  end.

(** An exception of [getValuePlaceholders] leaves the input as it was. *)
Definition sql_insert_btn {W} (D : Driver W) (p : page) (s : state W)
  : (js_error + string) * (page * state W) :=
  match currentTable p with
  | Some table =>
      if is_set (currentTable p)
      then
        let ps := updateTableSchema D p s in
        let columns := getColumnList (fst ps) in
        (match getValuePlaceholders (fst ps) with
         | inl error => inl error
         | inr values =>
             inr ("INSERT INTO " ++ table ++ " (" ++ columns ++ ") VALUES (" ++ values ++ ");")
         end, ps)
      else (inr "INSERT INTO table_name (column1, column2) VALUES (value1, value2);", (p, s))
  | None => (inr "INSERT INTO table_name (column1, column2) VALUES (value1, value2);", (p, s))
  end.

Definition sql_update_btn {W} (D : Driver W) (p : page) (s : state W)
  : string * (page * state W) :=
  match currentTable p with
  | Some table =>
      if is_set (currentTable p)
      then
        let ps := updateTableSchema D p s in
        ("UPDATE " ++ table ++ " SET column_name = new_value WHERE "
         ++ getPrimaryKeyCondition (fst ps) ++ ";", ps)
      else ("UPDATE table_name SET column1 = value1 WHERE condition;", (p, s))
  | None => ("UPDATE table_name SET column1 = value1 WHERE condition;", (p, s))
  end.

Definition sql_delete_btn {W} (D : Driver W) (p : page) (s : state W)
  : string * (page * state W) :=
  match currentTable p with
  | Some table =>
      if is_set (currentTable p)
      then
        let ps := updateTableSchema D p s in
        ("DELETE FROM " ++ table ++ " WHERE " ++ getPrimaryKeyCondition (fst ps) ++ ";", ps)
      else ("DELETE FROM table_name WHERE condition;", (p, s))
  | None => ("DELETE FROM table_name WHERE condition;", (p, s))
  end.

(** The identifier as close-connection receives it. *)
Definition sent_identifier (p : page) : string :=
  match currentConnectionId p with
  | Some connectionId => connectionId
  | None => "null"
  end.

(** The click listener of the disconnect button; [confirmed] is the answer
    to the confirmation. *)
Definition disconnect_btn {W} (D : Driver W) (confirmed : bool) (p : page) (s : state W)
  : page * state W :=
  if confirmed then
    match run D (close_connection (sent_identifier p)) s with
    | (inr _, s1) =>
        ({| currentScreen := "connection-screen";
            currentConnectionId := None;
            currentDatabase := None;
            currentTable := None;
            currentTableSchema := currentTableSchema p |}, s1)
    | (inl _, s1) => (p, s1)
    end
  else (p, s).

Definition is_lower (c : ascii) : bool :=
  (97 <=? nat_of_ascii c)%nat && (nat_of_ascii c <=? 122)%nat.

(** No letter of the string is a lower-case one. *)
Fixpoint no_lower (type : string) : bool :=
  match type with
  | "" => true
  | String c rest => negb (is_lower c) && no_lower rest
  end.

(** ** Connection profiles (main.js) over the store (store.js) *)

Module Profiles.

(** The object kept under a profile name. *)
Record profile : Type := {
  dbType : jsval;
  host : jsval;
  port : jsval;
  username : jsval;
  password : jsval
}.

(** The argument of save-connection-profile: its name and the five
    properties that are kept. *)
Record request : Type := { name : jsval; settings : profile }.

(** The object [profiles]: its own properties in creation order, and the
    profile an assignment to [__proto__] has made its prototype, if any
    (Object.prototype otherwise). *)
Record object : Type := { own : list (string * profile); proto : option profile }.

Definition empty : object := {| own := []; proto := None |}.

Fixpoint own_lookup (k : string) (l : list (string * profile)) : option profile :=
  match l with
  | [] => None
  | (k', v) :: l' => if String.eqb k' k then Some v else own_lookup k l'
  end.

(** An own property keeps its place when it is assigned again; a new one
    comes last. *)
Fixpoint own_assign (k : string) (v : profile) (l : list (string * profile))
  : list (string * profile) :=
  match l with
  | [] => [(k, v)]
  | (k', v') :: l' => if String.eqb k' k then (k, v) :: l' else (k', v') :: own_assign k v l'
  end.

(** [profiles[k] = v]: [__proto__] is an accessor of Object.prototype
    unless the object has a property of that name itself. *)
Definition assign (k : string) (v : profile) (o : object) : object :=
  match own_lookup k (own o) with
  | Some _ => {| own := own_assign k v (own o); proto := proto o |}
  | None =>
      if String.eqb k "__proto__"
      then {| own := own o; proto := Some v |}
      else {| own := own_assign k v (own o); proto := proto o |}
  end.

(** What [profiles[k]] can be. *)
Inductive value : Type :=
| Missing
| Profile (p : profile)
| Field (v : jsval)
| Builtin (k : string)
| ObjectPrototype.

Definition field (p : profile) (k : string) : option jsval :=
  if String.eqb k "dbType" then Some (dbType p)
  else if String.eqb k "host" then Some (host p)
  else if String.eqb k "port" then Some (port p)
  else if String.eqb k "username" then Some (username p)
  else if String.eqb k "password" then Some (password p)
  else None.

(** A member of Object.prototype. *)
Definition inherited (o : object) (k : string) : value :=
  if String.eqb k "__proto__"
  then match proto o with Some p => Profile p | None => ObjectPrototype end
  else if is_prototype_key k then Builtin k else Missing.

(** [profiles[k]], along the prototype chain. *)
Definition read (o : object) (k : string) : value :=
  match own_lookup k (own o) with
  | Some p => Profile p
  | None =>
      match proto o with
      | Some p =>
          match field p k with
          | Some v => Field v
          | None => inherited o k
          end
      | None => inherited o k
      end
  end.

Definition is_truthy (v : value) : bool :=
  match v with
  | Missing => false
  | Field v => truthy v
  | Profile _ | Builtin _ | ObjectPrototype => true
  end.

Definition digit (c : ascii) : option N :=
  let n := N_of_ascii c in
  if (48 <=? n)%N && (n <=? 57)%N then Some (n - 48)%N else None.

Fixpoint digits (acc : N) (k : string) : option N :=
  match k with
  | "" => Some acc
  | String c k' =>
      match digit c with
      | Some d => digits (10 * acc + d)%N k'
      | None => None
      end
  end.

(** The array index a property name stands for, if any. *)
Definition array_index (k : string) : option N :=
  match k with
  | "" => None
  | _ =>
      match digits 0 k with
      | Some n => if String.eqb (pretty n) k && (n <? 4294967295)%N then Some n else None
      | None => None
      end
  end.

(** [Object.keys(profiles)]: array indices in ascending order, then the
    other names in creation order. *)
Definition names (o : object) : list string :=
  let own_names := map fst (own o) in
  (map pretty (merge_sort N.le (omap array_index own_names))
   ++ filter (fun k => array_index k = None) own_names)%list.

(** [this.data] of the store.  The slot of the profiles holds the object
    of the profiles or, as [None], a value that is not truthy. *)
Record data (C : Type) : Type := {
  dbCredentials : C;
  connectionProfiles : option object
}.
Arguments dbCredentials {C}.
Arguments connectionProfiles {C}.

(** [fs.writeFileSync(this.path, JSON.stringify(this.data, null, 2), 'utf8')] *)
Record Disk (C F : Type) : Type := {
  writeConfig : data C -> F -> (js_error + unit) * F
}.
Arguments writeConfig {C F}.

Section Store.
Context {C F : Type} (K : Disk C F).

(** [Store.save]: an error is logged and dropped. *)
Definition save (d : data C) (f : F) : F := snd (writeConfig K d f).

(** [store.set('connectionProfiles', value)] *)
Definition set_profiles (value : object) (d : data C) (f : F) : data C * F :=
  let d' := {| dbCredentials := dbCredentials d; connectionProfiles := Some value |} in
  (d', save d' f).

(** [store.get('connectionProfiles') || {}] *)
Definition profiles_of (d : data C) : object := default empty (connectionProfiles d).

(** save-connection-profile; [None] is a call without a profile. *)
Definition save_connection_profile (profile : option request) (d : data C) (f : F)
  : result jsval * (data C * F) :=
  match profile with
  | None => (Failure (read_of_undefined "name"), (d, f))
  | Some r =>
      if negb (truthy (name r)) then (Failure "Profile name is required", (d, f)) else
      let profiles := assign (to_string (name r)) (settings r) (profiles_of d) in
      (Success (name r), set_profiles profiles d f)
  end.

(** load-connection-profiles *)
Definition load_connection_profiles (d : data C) : result (list string) :=
  Success (names (profiles_of d)).

(** load-connection-profile *)
Definition load_connection_profile (profileName : jsval) (d : data C) : result value :=
  let profile := read (profiles_of d) (to_string profileName) in
  if negb (is_truthy profile) then Failure "Profile not found" else Success profile.

(** get-saved-credentials *)
Definition get_saved_credentials (d : data C) : C := dbCredentials d.

End Store.

(** A disk that refuses every write. *)
Definition read_only_disk {C} : Disk C (option (data C)) :=
  {| writeConfig := fun _ f => (inl (Error "EACCES: permission denied, open 'config.json'"), f) |}.

(** A disk that keeps the last data written. *)
Definition disk {C} : Disk C (option (data C)) :=
  {| writeConfig := fun d _ => (inr tt, Some d) |}.

Definition local : profile :=
  {| dbType := VStr "mysql"; host := VStr "localhost"; port := VStr "3306";
     username := VStr "root"; password := VStr "secret" |}.

Definition archive : profile :=
  {| dbType := VStr "sqlite"; host := VStr "/var/data/archive.db"; port := VStr "";
     username := VStr ""; password := VStr "" |}.

End Profiles.

(** A page that shows the table [users] of the fixture connection. *)
Definition browsing : page :=
  {| currentScreen := "browser-screen";
     currentConnectionId := Some Fixture.connectionId;
     currentDatabase := Some "postgres";
     currentTable := Some "users";
     currentTableSchema := [] |}.

(** The descriptors of a SQLite table declared with upper-case types. *)
Definition upper_case_columns : list jsobj :=
  [ [ ("name", VStr "id"); ("type", VStr "INTEGER"); ("nullable", VBool false);
      ("default", VNull); ("pk", VNum 1) ];
    [ ("name", VStr "label"); ("type", VStr "VARCHAR(40)"); ("nullable", VBool true);
      ("default", VNull); ("pk", VNum 0) ] ].

(** A store that holds one profile. *)
Definition one_profile : Profiles.data unit :=
  {| Profiles.dbCredentials := tt;
     Profiles.connectionProfiles :=
       Some {| Profiles.own := [("local", Profiles.local)]; Profiles.proto := None |} |}.

Definition save_archive (name : jsval) : Profiles.request :=
  {| Profiles.name := name; Profiles.settings := Profiles.archive |}.

(** * Properties *)

(** ** How programs run *)
Section Facts.
Context {W : Type} (D : Driver W).

Lemma run_bind {A B} (p : prog A) (f : A -> prog B) (s : state W) :
  run D (bind p f) s =
  match run D p s with
  | (inr a, s') => run D (f a) s'
  | (inl e, s') => (inl e, s')
  end.
Proof.
  revert s. induction p as [a | e | X ev k IH]; intros s; simpl; auto.
Qed.

Lemma run_try_catch {A} (p : prog A) (h : js_error -> prog A) (s : state W) :
  run D (try_catch p h) s =
  match run D p s with
  | (inr a, s') => (inr a, s')
  | (inl e, s') => run D (h e) s'
  end.
Proof.
  revert s. induction p as [a | e | X ev k IH]; intros s; simpl; auto.
Qed.

Lemma run_perform {X} (ev : event X) (s : state W) :
  run D (perform ev) s = handle D ev s.
Proof.
  unfold perform. simpl. destruct (handle D ev s) as [[e | x] s']; reflexivity.
Qed.

Lemma run_resolve_own (id : string) (e : entry) (s : state W) :
  dbConnections s !! id = Some e ->
  run D (resolve id) s = (inr (connection e, Some (dbType e)), s).
Proof.
  intros H. unfold resolve. simpl. unfold lookup_connection. rewrite H. reflexivity.
Qed.

Lemma run_resolve_undefined (id : string) (s : state W) :
  lookup_connection s id = Undefined ->
  run D (resolve id) s = (inl (TypeError destructure_undefined), s).
Proof.
  intros H. unfold resolve. simpl. rewrite H. reflexivity.
Qed.

Lemma run_resolve_inherited (id : string) (s : state W) :
  lookup_connection s id = Inherited None ->
  run D (resolve id) s = (inl (Error "Database connection not found"), s).
Proof.
  intros H. unfold resolve. simpl. rewrite H. reflexivity.
Qed.
Lemma read_only_bind {A B} (p : prog A) (f : A -> prog B) :
  read_only p -> (forall a, read_only (f a)) -> read_only (bind p f).
Proof.
  intros Hp Hf. induction Hp; simpl; auto using @read_only.
Qed.

Lemma read_only_perform {X} (ev : event X) :
  writes_registry ev = false -> read_only (perform ev).
Proof.
  intros H. apply read_only_Do; [exact H |]. intros [e | x]; constructor.
Qed.

Lemma read_only_try_catch {A} (p : prog A) (h : js_error -> prog A) :
  read_only p -> (forall e, read_only (h e)) -> read_only (try_catch p h).
Proof.
  intros Hp Hh. induction Hp; simpl; auto using @read_only.
Qed.

Lemma read_only_for_of {A B} (xs : list A) (body : A -> B -> prog B) (acc : B) :
  (forall x b, read_only (body x b)) -> read_only (for_of xs body acc).
Proof.
  intros Hb. revert acc. induction xs as [| x xs IH]; intros acc; simpl.
  - constructor.
  - apply read_only_bind; auto.
Qed.

Lemma handle_keeps_registry {X} (ev : event X) (s : state W) :
  writes_registry ev = false ->
  dbConnections (snd (handle D ev s)) = dbConnections s
  /\ inherited_connection (snd (handle D ev s)) = inherited_connection s.
Proof.
  destruct ev; simpl; intros H; try discriminate; auto.
Qed.

Lemma run_keeps_registry {A} (p : prog A) (s : state W) :
  read_only p ->
  dbConnections (snd (run D p s)) = dbConnections s
  /\ inherited_connection (snd (run D p s)) = inherited_connection s.
Proof.
  intros Hp. revert s. induction Hp as [a | e | X ev k Hev Hk IH]; intros s; simpl; auto.
  destruct (handle_keeps_registry ev s Hev) as [E1 E2].
  destruct (IH (fst (handle D ev s)) (snd (handle D ev s))) as [E3 E4].
  split; congruence.
Qed.
End Facts.

Ltac prove_read_only :=
  repeat (intros;
          match goal with
          | |- read_only (perform _) => apply read_only_perform; reflexivity
          | |- read_only (bind _ _) => apply read_only_bind
          | |- read_only (Ret _) => constructor
          | |- read_only (Throw _) => constructor
          | |- read_only (for_of _ _ _) => apply read_only_for_of
          | |- read_only (try_catch _ _) => apply read_only_try_catch
          | |- read_only (match ?x with _ => _ end) => destruct x
          end).

(** ** Handlers that only read *)

(** list-databases, list-tables, get-table-schema, execute-query and
    get-database-schema never assign to or delete from the registry. *)
Lemma readers_are_read_only (id table query : string) :
  read_only (list_databases id)
  /\ read_only (list_tables id)
  /\ read_only (get_table_schema id table)
  /\ read_only (execute_query id query)
  /\ read_only (get_database_schema id).
Proof.
  unfold list_databases, list_tables, get_table_schema, execute_query,
    get_database_schema, resolve, destructure, report, report_schema, switch,
    mysql_tables, postgresql_tables, sqlite_tables, first_db.
  repeat split; prove_read_only;
    unfold mysql_table, postgresql_table, sqlite_table; prove_read_only.
Qed.

(** ** Identifiers the registry does not hold *)
Section UnknownId.
Context {W : Type} (D : Driver W).

(** C4 (defect in the code).  Given an identifier for which
    [dbConnections[connectionId]] is undefined, each of list-databases,
    use-database, list-tables, get-table-schema, execute-query and
    get-database-schema returns a failure and leaves the state alone, and
    nothing is thrown out of the handler; but the failure reported is the
    TypeError of the destructuring assignment, not the handler's own
    'Database connection not found', whose [throw] comes one statement too
    late to be reached. *)
Theorem unknown_id_reports_type_error (id database table query : string) (s : state W) :
  lookup_connection s id = Undefined ->
  run D (list_databases id) s = (inr (Failure destructure_undefined), s)
  /\ run D (use_database id database) s = (inr (Failure destructure_undefined), s)
  /\ run D (list_tables id) s = (inr (Failure destructure_undefined), s)
  /\ run D (get_table_schema id table) s = (inr (Failure destructure_undefined), s)
  /\ run D (execute_query id query) s = (inr (Failure destructure_undefined), s)
  /\ run D (get_database_schema id) s = (inr (Failure destructure_undefined), s)
  /\ destructure_undefined <> "Database connection not found".
Proof.
  intros H.
  repeat split;
    try (unfold list_databases, use_database, list_tables, get_table_schema,
           execute_query, get_database_schema;
         rewrite run_try_catch, run_bind, (run_resolve_undefined D id s H);
         reflexivity).
  discriminate.
Qed.

(** The handlers' own message is reached only through a member of
    [Object.prototype], which has no [connection]. *)
Lemma inherited_id_not_found (id : string) (s : state W) :
  lookup_connection s id = Inherited None ->
  run D (list_tables id) s = (inr (Failure "Database connection not found"), s).
Proof.
  intros H. unfold list_tables.
  rewrite run_try_catch, run_bind, (run_resolve_inherited D id s H). reflexivity.
Qed.

(** C2 (defect in the code).  close-connection on an identifier for which
    [dbConnections[connectionId]] is undefined, as it is for one never
    opened or already closed, does not return success: the destructuring
    assignment throws before the line that returns [{ success: true }]
    for a connection already closed or not found, and the catch clause
    reports the TypeError. *)
Theorem close_connection_unknown_id (id : string) (s : state W) :
  lookup_connection s id = Undefined ->
  run D (close_connection id) s = (inr (Failure destructure_undefined), s).
Proof.
  intros H. unfold close_connection.
  rewrite run_try_catch, run_bind, run_perform. simpl. rewrite H. reflexivity.
Qed.

(** close-connection on a live entry, in terms of the native close. *)
Lemma run_close_connection_own (id : string) (e : entry) (s : state W) :
  dbConnections s !! id = Some e ->
  run D (close_connection id) s =
  match run D (release (Some (dbType e)) (connection e)) s with
  | (inl err, s1) => (inr (Failure (message err)), s1)
  | (inr _, s1) =>
      (inr (Success tt),
       State (delete id (dbConnections s1)) (inherited_connection s1) (world s1))
  end.
Proof.
  intros He. unfold close_connection.
  rewrite run_try_catch, run_bind, run_perform.
  cbn [handle fst snd]. unfold lookup_connection. rewrite He.
  cbn [destructure bind fst snd]. rewrite run_bind.
  destruct (run D (release (Some (dbType e)) (connection e)) s) as [[err | []] s1];
    reflexivity.
Qed.

(** The native close does not touch the registry. *)
Lemma release_keeps_registry (t : option string) (c : conn) (s s1 : state W)
    (r : js_error + unit) :
  run D (release t c) s = (r, s1) -> dbConnections s1 = dbConnections s.
Proof.
  unfold release, switch.
  repeat case_match; rewrite ?run_perform; simpl; unfold lift; simpl;
    intros Hr; inversion Hr; reflexivity.
Qed.

(** C10.  When close-connection finds a live entry and the native close
    ([connection.end()] or [connection.close(cb)], by the entry's
    [dbType]) fails, the handler returns a failure carrying the error's
    message and the registry is as before: [delete] was not reached, the
    entry still holds the same connection and kind, and it is what the
    next lookup of the identifier finds. *)
Theorem close_connection_failure_keeps_entry
    (id : string) (e : entry) (err : js_error) (s s1 : state W) :
  dbConnections s !! id = Some e ->
  run D (release (Some (dbType e)) (connection e)) s = (inl err, s1) ->
  exists s', run D (close_connection id) s = (inr (Failure (message err)), s')
    /\ dbConnections s' = dbConnections s
    /\ lookup_connection s' id = Own e.
Proof.
  intros He Hr. exists s1.
  rewrite (run_close_connection_own id e s He), Hr.
  pose proof (release_keeps_registry _ _ _ _ _ Hr) as Hreg.
  split; [reflexivity | split; [exact Hreg |]].
  unfold lookup_connection. rewrite Hreg, He. reflexivity.
Qed.

(** Closing a live connection whose native close succeeds removes the
    entry. *)
Lemma close_connection_removes_entry (id : string) (e : entry) (s s1 : state W) :
  dbConnections s !! id = Some e ->
  run D (release (Some (dbType e)) (connection e)) s = (inr tt, s1) ->
  exists s', run D (close_connection id) s = (inr (Success tt), s')
    /\ dbConnections s' !! id = None.
Proof.
  intros He Hr. eexists.
  rewrite (run_close_connection_own id e s He), Hr.
  split; [reflexivity |]. simpl. apply lookup_delete_eq.
Qed.

(** After such a close, closing the same identifier again reports the
    TypeError. *)
Lemma close_connection_twice (id : string) (e : entry) (s s1 : state W) :
  is_prototype_key id = false ->
  dbConnections s !! id = Some e ->
  run D (release (Some (dbType e)) (connection e)) s = (inr tt, s1) ->
  exists s',
    run D (close_connection id) s = (inr (Success tt), s')
    /\ run D (close_connection id) s' = (inr (Failure destructure_undefined), s').
Proof.
  intros Hid He Hr. eexists.
  rewrite (run_close_connection_own id e s He), Hr.
  split; [reflexivity |].
  unfold close_connection.
  rewrite run_try_catch, run_bind, run_perform. simpl.
  unfold lookup_connection. simpl. rewrite lookup_delete_eq, Hid. reflexivity.
Qed.
End UnknownId.

Lemma unknown_id_reports_type_error_witness :
  lookup_connection Fixture.fresh "1700000000000" = Undefined
  /\ run Engine.driver (list_tables "1700000000000") Fixture.fresh
     = (inr (Failure destructure_undefined), Fixture.fresh)
  /\ run Engine.driver (execute_query "1700000000000" Fixture.select_one) Fixture.fresh
     = (inr (Failure destructure_undefined), Fixture.fresh).
Proof.
  assert (H : lookup_connection Fixture.fresh "1700000000000" = Undefined)
    by (vm_compute; reflexivity).
  pose proof (unknown_id_reports_type_error Engine.driver "1700000000000"
                "postgres" "users" Fixture.select_one Fixture.fresh H) as T.
  split; [exact H |]. split; [apply T | apply T].
Defined.

Lemma close_connection_unknown_id_witness :
  lookup_connection Fixture.fresh "1700000000000" = Undefined
  /\ run Engine.driver (close_connection "1700000000000") Fixture.fresh
     = (inr (Failure destructure_undefined), Fixture.fresh).
Proof.
  split; [vm_compute; reflexivity |].
  apply (close_connection_unknown_id Engine.driver). vm_compute; reflexivity.
Defined.

Lemma close_connection_failure_keeps_entry_witness :
  exists s',
    run Engine.driver (close_connection Fixture.connectionId) Fixture.pg_ended
    = (inr (Failure "Called end on pool more than once"), s')
    /\ dbConnections s' = dbConnections Fixture.pg_ended
    /\ lookup_connection s' Fixture.connectionId = Own (Entry 0 "postgresql").
Proof.
  apply (close_connection_failure_keeps_entry Engine.driver Fixture.connectionId
           (Entry 0 "postgresql") (Error "Called end on pool more than once")
           Fixture.pg_ended Fixture.pg_ended).
  - vm_compute; reflexivity.
  - vm_compute; reflexivity.
Defined.

(** ** Switching the database of a PostgreSQL connection *)
Section UseDatabase.
Context {W : Type} (D : Driver W).

(** C1 (as amended).  On a PostgreSQL entry use-database builds the new
    pool from the old pool's options with [database] set to the requested
    name, then ends the old pool, then stores the new pool in the entry,
    in that order.  If [new Pool] throws, the old pool is not ended and
    the registry is unchanged; if ending the old pool fails, the registry
    is unchanged; otherwise the entry holds the new pool and success is
    returned.  Neither step asks the server about the name. *)
Theorem use_database_postgresql (id database : string) (c : conn) (s : state W) :
  dbConnections s !! id = Some (Entry c "postgresql") ->
  run D (use_database id database) s =
  match Pool_new D (set_prop (Pool_options D c (world s)) "database" (VStr database))
                 (world s) with
  | (inl err, w1) => (inr (Failure (message err)), with_world s w1)
  | (inr newConnection, w1) =>
      match Pool_end D c w1 with
      | (inl err, w2) => (inr (Failure (message err)), with_world s w2)
      | (inr _, w2) =>
          (inr (Success tt),
           State (<[id := Entry newConnection "postgresql"]> (dbConnections s))
                 (inherited_connection s) w2)
      end
  end.
Proof.
  intros He. unfold use_database.
  rewrite run_try_catch, run_bind, (run_resolve_own D id _ s He).
  simpl. unfold lift.
  destruct (Pool_new D _ (world s)) as [[err | newConnection] w1]; simpl; [reflexivity |].
  destruct (Pool_end D c w1) as [[err | []] w2]; simpl; [reflexivity |].
  unfold lookup_connection. simpl. rewrite He. reflexivity.
Qed.
End UseDatabase.

Lemma use_database_postgresql_witness :
  dbConnections Fixture.pg_open !! Fixture.connectionId = Some (Entry 0 "postgresql")
  /\ run Engine.driver (use_database Fixture.connectionId "postgres") Fixture.pg_open
     = (inr (Success tt),
        State {[ Fixture.connectionId := Entry 1 "postgresql" ]} ∅
              (Engine.with_natives Fixture.servers
                 [ Engine.PgPool Fixture.pg_config true;
                   Engine.PgPool (set_prop Fixture.pg_config "database" (VStr "postgres"))
                                 false ])).
Proof.
  split; [vm_compute; reflexivity |].
  rewrite (use_database_postgresql Engine.driver Fixture.connectionId "postgres" 0
             Fixture.pg_open); vm_compute; reflexivity.
Defined.

(** C1 (counterexample).  The fixture server has no database [nope].
    Before the switch a query on the connection succeeds.  The switch to
    [nope] reports success, replaces the entry's pool by one bound to
    [nope] and ends the old pool; the same query then fails. *)
Lemma use_database_invalid_name_replaces_pool :
  Engine.assoc "nope" (Engine.pg_server Fixture.servers) = None
  /\ fst (run Engine.driver (execute_query Fixture.connectionId Fixture.select_one)
            Fixture.pg_open)
     = inr (Success (Some [[("one", VNum 1)]]))
  /\ fst (run Engine.driver (use_database Fixture.connectionId "nope") Fixture.pg_open)
     = inr (Success tt)
  /\ (let s1 := snd (run Engine.driver (use_database Fixture.connectionId "nope")
                       Fixture.pg_open) in
      dbConnections s1 !! Fixture.connectionId = Some (Entry 1 "postgresql")
      /\ dbConnections s1 <> dbConnections Fixture.pg_open
      /\ Engine.natives (world s1) !! 0%nat = Some (Engine.PgPool Fixture.pg_config true)
      /\ is_success (match fst (run Engine.driver
                                  (execute_query Fixture.connectionId Fixture.select_one) s1)
                     with inr r => r | inl _ => Failure "" end) = false).
Proof.
  repeat split; try (vm_compute; reflexivity).
  intros H.
  assert (E : dbConnections (snd (run Engine.driver
                (use_database Fixture.connectionId "nope") Fixture.pg_open))
              !! Fixture.connectionId = Some (Entry 0 "postgresql")).
  { rewrite H. vm_compute; reflexivity. }
  vm_compute in E. discriminate E.
Qed.

(** ** Column descriptors *)
Section Descriptors.
Context {W : Type} (D : Driver W).

Lemma run_get_table_schema_own (id table : string) (e : entry) (s : state W) :
  dbConnections s !! id = Some e ->
  run D (get_table_schema id table) s =
  match
    run D (switch (Some (dbType e))
             (let! rows := perform (MysqlQuery (connection e) ("DESCRIBE `" ++ table ++ "`")) in
              Ret (map mysql_column rows))
             (let! rows := perform (PoolQuery (connection e) columns_sql [VStr table]) in
              Ret (map postgresql_column rows))
             (let! rows := perform (DatabaseAll (connection e)
                                      ("PRAGMA table_info(" ++ table ++ ")")) in
              Ret (map sqlite_column rows))
             (Ret [])) s
  with
  | (inl err, s1) => (inr (Failure (message err)), s1)
  | (inr columns, s1) => (inr (Success columns), s1)
  end.
Proof.
  intros He. unfold get_table_schema.
  rewrite run_try_catch, run_bind, (run_resolve_own D id e s He).
  cbn [fst snd]. rewrite run_bind.
  match goal with |- context [run D ?p s] => destruct (run D p s) as [[err | columns] s1] end;
    reflexivity.
Qed.

Lemma run_query_map {X} (ev : event (list X)) {Y} (f : X -> Y) (s s1 : state W)
    (ys : list Y) :
  run D (let! rows := perform ev in Ret (map f rows)) s = (inr ys, s1) ->
  exists rows, ys = map f rows.
Proof.
  rewrite run_bind, run_perform.
  destruct (handle D ev s) as [[err | rows] s']; simpl; intros H; inversion H.
  eauto.
Qed.


(** C3 (defect in the code).  For a PostgreSQL entry no descriptor
    returned by get-table-schema says which column is the primary key:
    none passes the renderer's test [column.key === 'PRI' || column.pk],
    and none has an [isPrimaryKey] property.  The branch sends the one
    columns query and never asks for the key constraint, whatever the
    table's key is. *)
Theorem get_table_schema_postgresql_no_primary_key
    (id table : string) (c : conn) (s s1 : state W) (columns : list jsobj) :
  dbConnections s !! id = Some (Entry c "postgresql") ->
  run D (get_table_schema id table) s = (inr (Success columns), s1) ->
  Forall (fun column => marks_primary_key column = false
                        /\ get_prop column "isPrimaryKey" = VUndefined) columns.
Proof.
  intros He. rewrite (run_get_table_schema_own id table _ s He).
  cbn [dbType connection switch String.eqb Ascii.eqb Bool.eqb].
  case_match; subst. case_match; try discriminate.
  intros Hs; inversion Hs; subst.
  match goal with H : run D _ s = _ |- _ => apply run_query_map in H as [rows ->] end.
  apply Forall_map, Forall_forall. intros row _. split; reflexivity.
Qed.
End Descriptors.



Lemma get_table_schema_postgresql_no_primary_key_witness :
  dbConnections Fixture.pg_open !! Fixture.connectionId = Some (Entry 0 "postgresql")
  /\ map Engine.col_pk (Engine.rel_columns Fixture.users) = [true; false]
  /\ (exists columns,
        run Engine.driver (get_table_schema Fixture.connectionId "users") Fixture.pg_open
        = (inr (Success columns), Fixture.pg_open)
        /\ map (fun column => get_prop column "name") columns = [VStr "id"; VStr "name"]
        /\ Forall (fun column => marks_primary_key column = false
                                 /\ get_prop column "isPrimaryKey" = VUndefined) columns).
Proof.
  split; [vm_compute; reflexivity |]. split; [reflexivity |].
  eexists. split; [vm_compute; reflexivity |]. split; [reflexivity |].
  apply (get_table_schema_postgresql_no_primary_key Engine.driver Fixture.connectionId
           "users" 0 Fixture.pg_open Fixture.pg_open);
    vm_compute; reflexivity.
Defined.

(** The sibling branches of get-table-schema do carry the key: for the
    same table [users], whose key is [id], the MySQL and SQLite
    descriptors mark [id] and only [id]. *)
Lemma get_table_schema_mysql_sqlite_primary_key :
  (exists columns,
     fst (run Engine.driver (get_table_schema Fixture.connectionId "users")
            Fixture.mysql_open) = inr (Success columns)
     /\ map marks_primary_key columns = [true; false])
  /\ (exists columns,
        fst (run Engine.driver (get_table_schema Fixture.connectionId "users")
               Fixture.sqlite_open) = inr (Success columns)
        /\ map marks_primary_key columns = [true; false]).
Proof.
  split; eexists; (split; [vm_compute; reflexivity | reflexivity]).
Qed.

(** So does get-database-schema on PostgreSQL, which sends [pkQuery]. *)
Lemma get_database_schema_postgresql_primary_key :
  fst (run Engine.driver (get_database_schema Fixture.connectionId) Fixture.pg_open)
  = inr (Success
           {| schema :=
                "Table: users" ++ nl ++ "Columns:" ++ nl
                ++ "  - id (integer) PRIMARY KEY NOT NULL" ++ nl
                ++ "  - name (text)" ++ nl ++ nl;
              schema_dbType := "postgresql" |}).
Proof. vm_compute; reflexivity. Qed.

(** ** Connection identifiers *)
Section Identifiers.
Context {W : Type} (D : Driver W).

(** Opening the native connection does not touch the registry. *)
Lemma read_only_open (i : connectionInfo) :
  read_only
    (exec! (if rememberCredentials i
            then perform (StoreSet "dbCredentials" (info_object i))
            else Ret tt) in
     switch (Some (info_dbType i))
       (let! config := client_config i in perform (MysqlCreateConnection config))
       (let! config := client_config i in perform (PoolNew config))
       (perform (DatabaseNew (host i)))
       (Throw (Error ("Unsupported database type: " ++ info_dbType i)))).
Proof. unfold switch, client_config. prove_read_only. Qed.

(** A successful connect-database returns the decimal numeral of the
    clock reading and stores the new entry under it. *)
Lemma connect_database_registers (i : connectionInfo) (s s1 : state W) (id : string) :
  run D (connect_database i) s = (inr (Success id), s1) ->
  id = pretty (Date_now D (world s1))
  /\ exists c, dbConnections s1 = <[id := Entry c (info_dbType i)]> (dbConnections s).
Proof.
  unfold connect_database. rewrite run_try_catch, run_bind.
  pose proof (run_keeps_registry D _ s (read_only_open i)) as [Hreg _].
  rewrite run_bind in Hreg.
  destruct (run D (if rememberCredentials i then _ else _) s) as [[e0 | []] s0];
    [simpl; discriminate |].
  rewrite run_bind.
  destruct (run D (switch _ _ _ _ _) s0) as [[e | c] s']; [simpl; discriminate |].
  simpl in Hreg. simpl. intros Hrun; inversion Hrun; subst; simpl.
  split; [reflexivity |]. exists c. rewrite Hreg. reflexivity.
Qed.

(** C5 (defect in the code).  The identifier is [Date.now().toString()]:
    when two successful opens read the same millisecond they return the
    same identifier, and the second assignment replaces the entry of the
    first, whose connection the registry no longer holds. *)
Theorem connect_database_same_millisecond
    (i1 i2 : connectionInfo) (s s1 s2 : state W) (id1 id2 : string) :
  run D (connect_database i1) s = (inr (Success id1), s1) ->
  run D (connect_database i2) s1 = (inr (Success id2), s2) ->
  Date_now D (world s1) = Date_now D (world s2) ->
  id1 = id2
  /\ exists c2, dbConnections s2 = <[id1 := Entry c2 (info_dbType i2)]> (dbConnections s).
Proof.
  intros H1 H2 Hclock.
  apply connect_database_registers in H1 as [-> [c1 E1]].
  apply connect_database_registers in H2 as [-> [c2 E2]].
  rewrite Hclock. split; [reflexivity |].
  exists c2. rewrite E2, E1, Hclock. apply insert_insert_eq.
Qed.

(** Two opens return distinct identifiers exactly when the clock has
    moved between them. *)
Lemma connect_database_distinct_iff
    (i1 i2 : connectionInfo) (s s1 s2 s3 : state W) (id1 id2 : string) :
  run D (connect_database i1) s = (inr (Success id1), s1) ->
  run D (connect_database i2) s2 = (inr (Success id2), s3) ->
  id1 <> id2 <-> Date_now D (world s1) <> Date_now D (world s3).
Proof.
  intros H1 H2.
  apply connect_database_registers in H1 as [-> _].
  apply connect_database_registers in H2 as [-> _].
  split; intros H E; apply H; [congruence | exact (inj pretty _ _ E)].
Qed.
End Identifiers.

Lemma connect_database_same_millisecond_witness :
  let r1 := run Engine.driver (connect_database (Fixture.sqlite_info "./fixture.db"))
              Fixture.fresh in
  let r2 := run Engine.driver (connect_database (Fixture.sqlite_info "./orders.db"))
              (snd r1) in
  fst r1 = inr (Success "1700000000000")
  /\ fst r2 = inr (Success "1700000000000")
  /\ dbConnections (snd r1) = {[ "1700000000000" := Entry 0 "sqlite" ]}
  /\ dbConnections (snd r2) = {[ "1700000000000" := Entry 1 "sqlite" ]}
  /\ Engine.natives (world (snd r2))
     = [ Engine.SqliteDatabase "./fixture.db" false;
         Engine.SqliteDatabase "./orders.db" false ]
  /\ ("1700000000000" = "1700000000000"
      /\ exists c2, dbConnections (snd r2)
                    = <[ "1700000000000" := Entry c2 "sqlite" ]> (dbConnections Fixture.fresh)).
Proof.
  cbv zeta.
  repeat (split; [vm_compute; reflexivity |]).
  apply (connect_database_same_millisecond Engine.driver
           (Fixture.sqlite_info "./fixture.db") (Fixture.sqlite_info "./orders.db")
           Fixture.fresh
           (snd (run Engine.driver (connect_database (Fixture.sqlite_info "./fixture.db"))
                   Fixture.fresh))
           (snd (run Engine.driver (connect_database (Fixture.sqlite_info "./orders.db"))
                   (snd (run Engine.driver
                           (connect_database (Fixture.sqlite_info "./fixture.db"))
                           Fixture.fresh))))
           "1700000000000" "1700000000000");
    vm_compute; reflexivity.
Defined.

(** When the clock has moved on by a millisecond between the two opens,
    the identifiers differ and the registry holds both connections. *)
Lemma connect_database_next_millisecond :
  let r1 := run Engine.driver (connect_database (Fixture.sqlite_info "./fixture.db"))
              Fixture.fresh in
  let later := State (dbConnections (snd r1)) (inherited_connection (snd r1))
                     (Engine.tick 1 (world (snd r1))) in
  let r2 := run Engine.driver (connect_database (Fixture.sqlite_info "./orders.db")) later in
  fst r1 = inr (Success "1700000000000")
  /\ fst r2 = inr (Success "1700000000001")
  /\ dbConnections (snd r2)
     = {[ "1700000000000" := Entry 0 "sqlite"; "1700000000001" := Entry 1 "sqlite" ]}.
Proof. cbv zeta. repeat split; vm_compute; reflexivity. Qed.

(** ** The schema summary *)
Section Schema.
Context {W : Type} (D : Driver W).


End Schema.




(** ** The tables a connection lists *)
Section Tables.
Import Engine.






End Tables.



(** The PostgreSQL listing has no [table_type] condition and returns the
    view as well; [tableQuery] of get-database-schema has the condition and
    lists [users] alone. *)
Lemma list_tables_postgresql_returns_view :
  fst (run Engine.driver (list_tables Fixture.connectionId) Fixture.pg_open)
  = inr (Success [VStr "users"; VStr "active_users"])
  /\ fst (run Engine.driver (postgresql_tables 0) Fixture.pg_open) = inr [VStr "users"].
Proof. split; vm_compute; reflexivity. Qed.

(** ** Interleaved handlers *)
Section Interleaving.
Context {W : Type} (D : Driver W) (id query database : string).

(** The first turn of execute-query: the entry is read and the query is
    sent on its pool; what remains is to return the outcome. *)
Lemma execute_query_first_turn (c : conn) (s : state W) :
  dbConnections s !! id = Some (Entry c "postgresql") ->
  exists p,
    advance D (execute_query id query) s
    = (Suspended p, with_world s (snd (Pool_query D c query [] (world s))))
    /\ resolved D p (answer D query c (world s)).
Proof.
  intros He. unfold execute_query, resolve. simpl.
  unfold lookup_connection. rewrite He. simpl.
  eexists. split; [reflexivity |].
  intros s'. unfold answer, lift. simpl.
  destruct (Pool_query D c query [] (world s)) as [[e | rows] w]; reflexivity.
Qed.
(** The first turn of use-database: either [new Pool] throws and the
    handler returns at once, or the old pool is being ended and what
    remains is to store the new one. *)
Lemma use_database_first_turn (c : conn) (s : state W) :
  dbConnections s !! id = Some (Entry c "postgresql") ->
  exists t s',
    advance D (use_database id database) s = (t, s')
    /\ stage2 D id database 1 t
    /\ dbConnections s' = dbConnections s.
Proof.
  intros He. unfold use_database, resolve. simpl.
  unfold lookup_connection at 1. rewrite He. simpl. unfold lift.
  destruct (Pool_new D _ (world s)) as [[e | c'] w1]; simpl.
  - eexists _, _. split; [reflexivity |]. split; [exact I | reflexivity].
  - eexists _, _. split; [reflexivity |]. split; [| reflexivity].
    intros s2 [c2 H2].
    destruct (Pool_end D c w1) as [[e | []] w2]; simpl.
    + eexists _, _. split; [reflexivity |]. exists c2. exact H2.
    + unfold lookup_connection. rewrite H2. simpl.
      eexists _, _. split; [reflexivity |].
      exists c'. simpl. apply lookup_insert_eq.
Qed.

Lemma step_First (R : result (option (list jsobj)) -> Prop) (a b : nat)
    (l : loop W (result (option (list jsobj))) (result unit)) :
  (a = 0 -> forall c w, R (answer D query c w)) ->
  invariant D id query database R a b l ->
  invariant D id query database R (S a) b (step D l First).
Proof.
  intros HR (Hpool & H1 & H2). unfold invariant, step. cbn [first_task second_task machine].
  destruct a as [| [| a]].
  - simpl in H1. rewrite H1. cbn [resume].
    destruct Hpool as [c Hc].
    destruct (execute_query_first_turn c (machine l) Hc) as (p & -> & Hp).
    cbn [fst snd]. split; [exists c; exact Hc |]. split; [| exact H2].
    exists (answer D query c (world (machine l))). split; [apply HR; reflexivity | exact Hp].
  - destruct (first_task l) as [p | p | [e | r]]; simpl in H1; try contradiction.
    + destruct H1 as (r & Hr & Hp). cbn [resume]. rewrite (Hp (machine l)).
      cbn [fst snd]. auto.
    + cbn [resume fst snd]. auto.
  - destruct (first_task l) as [p | p | [e | r]]; simpl in H1; try contradiction.
    cbn [resume fst snd]. auto.
Qed.

Lemma step_Second (R : result (option (list jsobj)) -> Prop) (a b : nat)
    (l : loop W (result (option (list jsobj))) (result unit)) :
  invariant D id query database R a b l ->
  invariant D id query database R a (S b) (step D l Second).
Proof.
  intros (Hpool & H1 & H2). unfold invariant, step. cbn [first_task second_task machine].
  destruct b as [| [| b]].
  - simpl in H2. rewrite H2. cbn [resume].
    destruct Hpool as [c Hc].
    destruct (use_database_first_turn c (machine l) Hc) as (t & s' & -> & Ht & Hreg).
    cbn [fst snd]. split; [exists c; rewrite Hreg; exact Hc | auto].
  - destruct (second_task l) as [p | p | [e | r]]; simpl in H2; try contradiction.
    + cbn [resume]. destruct (H2 (machine l) Hpool) as (r & s' & -> & Hs').
      cbn [fst snd]. simpl. auto.
    + cbn [resume fst snd]. auto.
  - destruct (second_task l) as [p | p | [e | r]]; simpl in H2; try contradiction.
    cbn [resume fst snd]. auto.
Qed.

(** Whatever the order of the turns, the invariant advances with them. *)
Lemma schedule_invariant (R : result (option (list jsobj)) -> Prop)
    (turns : list turn) (a b : nat)
    (l : loop W (result (option (list jsobj))) (result unit)) :
  (a = 0 -> forall c w, R (answer D query c w)) ->
  invariant D id query database R a b l ->
  invariant D id query database R (a + turns_of First turns) (b + turns_of Second turns)
    (schedule D turns l).
Proof.
  revert a b l. induction turns as [| t turns IH]; intros a b l HR Hinv.
  - simpl. rewrite !Nat.add_0_r. exact Hinv.
  - unfold schedule. cbn [fold_left turns_of]. destruct t.
    + rewrite Nat.add_succ_r. apply (IH (S a) b); [discriminate | apply step_First; assumption].
    + rewrite Nat.add_succ_r. apply (IH a (S b)); [exact HR | apply step_Second; assumption].
Qed.

Lemma schedule_app {A B} (xs ys : list turn) (l : loop W A B) :
  schedule D (xs ++ ys)%list l = schedule D ys (schedule D xs l).
Proof. unfold schedule. apply fold_left_app. Qed.

(** Turns of the other invocation leave one that has not started where
    it is. *)
Lemma schedule_Second_only {A B} (turns : list turn) (l : loop W A B) :
  Forall (eq Second) turns -> first_task (schedule D turns l) = first_task l.
Proof.
  intros H. revert l. induction H as [| t turns <- _ IH]; intros l; [reflexivity |].
  unfold schedule. cbn [fold_left]. fold (schedule D turns (step D l Second)).
  rewrite IH. reflexivity.
Qed.

Lemma turns_of_Second_only (turns : list turn) :
  Forall (eq Second) turns -> turns_of First turns = 0.
Proof. induction 1 as [| t turns <- _ IH]; [reflexivity | exact IH]. Qed.

(** C9 (as amended).  execute-query and use-database invoked on the same
    PostgreSQL entry, their turns interleaved in any order: neither ever
    ends with an uncaught error; each has returned a result once it has
    had two turns; and what execute-query returns is the answer (rows, or
    the driver's error message) of the pool that the registry held, in
    the world as it was, at the turn in which execute-query started. *)
Theorem interleaved_query_and_switch (c : conn) (s : state W) (turns : list turn) :
  dbConnections s !! id = Some (Entry c "postgresql") ->
  let final := schedule D turns (in_flight id query database s) in
  uncaught (first_task final) = false
  /\ uncaught (second_task final) = false
  /\ (2 <= turns_of First turns -> returned (first_task final) = true)
  /\ (2 <= turns_of Second turns -> returned (second_task final) = true)
  /\ (forall (before after : list turn) r,
        turns = (before ++ First :: after)%list ->
        Forall (eq Second) before ->
        first_task final = Settled (inr r) ->
        exists c',
          let started := machine (schedule D before (in_flight id query database s)) in
          dbConnections started !! id = Some (Entry c' "postgresql")
          /\ r = answer D query c' (world started)).
Proof.
  intros He final.
  assert (H0 : invariant D id query database (fun _ => True) 0 0
                 (in_flight id query database s)).
  { split; [exists c; exact He | split; reflexivity]. }
  pose proof (schedule_invariant (fun _ => True) turns 0 0 _ (fun _ _ _ => I) H0)
    as (_ & H1 & H2).
  fold final in H1, H2. simpl in H1, H2.
  split; [| split; [| split; [| split]]].
  - destruct (turns_of First turns) as [| [| n]], (first_task final) as [p | p | [e | r]];
      simpl in H1; try contradiction; try discriminate; reflexivity.
  - destruct (turns_of Second turns) as [| [| n]], (second_task final) as [p | p | [e | r]];
      simpl in H2; try contradiction; try discriminate; reflexivity.
  - intros Hn.
    destruct (turns_of First turns) as [| [| n]]; [lia | lia |].
    destruct (first_task final) as [p | p | [e | r]]; simpl in H1; try contradiction.
    reflexivity.
  - intros Hn.
    destruct (turns_of Second turns) as [| [| n]]; [lia | lia |].
    destruct (second_task final) as [p | p | [e | r]]; simpl in H2; try contradiction.
    reflexivity.
  - intros before after r -> Hbefore Hr.
    pose proof (schedule_invariant (fun _ => True) before 0 0 _ (fun _ _ _ => I) H0)
      as Hb.
    rewrite (turns_of_Second_only before Hbefore) in Hb.
    destruct Hb as ([c' Hc'] & Hb1 & Hb2). simpl in Hb1.
    exists c'. cbv zeta. split; [exact Hc' |].
    set (l1 := schedule D before (in_flight id query database s)) in *.
    assert (Hstart : invariant D id query database
                       (eq (answer D query c' (world (machine l1)))) 1
                       (0 + turns_of Second before) (step D l1 First)).
    { unfold invariant, step. cbn [first_task second_task machine].
      rewrite Hb1. cbn [resume].
      destruct (execute_query_first_turn c' (machine l1) Hc') as (p & -> & Hp).
      cbn [fst snd]. split; [exists c'; exact Hc' |]. split; [| exact Hb2].
      exists (answer D query c' (world (machine l1))). split; [reflexivity | exact Hp]. }
    pose proof (schedule_invariant _ after 1 _ _ ltac:(discriminate) Hstart)
      as (_ & Ha & _).
    unfold final in Hr. rewrite schedule_app in Hr.
    assert (Hr' : first_task (schedule D after (step D l1 First)) = Settled (inr r))
      by exact Hr.
    rewrite Hr' in Ha. simpl in Ha. symmetry.
    destruct (turns_of First after); exact Ha.
Qed.
End Interleaving.

(** C9 (counterexample).  execute-query takes its first turn and is
    suspended on its query; use-database then takes its first turn on the
    same identifier and is suspended on [connection.end()]: two operations
    against one identifier are in progress at once. *)
Lemma execute_query_and_use_database_overlap :
  let l := schedule Engine.driver [First; Second]
             (in_flight Fixture.connectionId Fixture.select_one "postgres" Fixture.pg_open) in
  in_progress (first_task l) = true /\ in_progress (second_task l) = true.
Proof. split; vm_compute; reflexivity. Qed.

Lemma interleaved_query_and_switch_witness :
  let final := schedule Engine.driver [Second; First; First; Second]
                 (in_flight Fixture.connectionId Fixture.select_one "postgres"
                    Fixture.pg_open) in
  dbConnections Fixture.pg_open !! Fixture.connectionId = Some (Entry 0 "postgresql")
  /\ first_task final
     = Settled (inr (Failure "Cannot use a pool after calling end on the pool"))
  /\ second_task final = Settled (inr (Success tt))
  /\ dbConnections (machine final) !! Fixture.connectionId = Some (Entry 1 "postgresql")
  /\ uncaught (first_task final) = false
  /\ uncaught (second_task final) = false
  /\ returned (first_task final) = true
  /\ returned (second_task final) = true.
Proof.
  cbv zeta.
  assert (H : dbConnections Fixture.pg_open !! Fixture.connectionId
              = Some (Entry 0 "postgresql")) by (vm_compute; reflexivity).
  destruct (interleaved_query_and_switch Engine.driver Fixture.connectionId
              Fixture.select_one "postgres" 0 Fixture.pg_open
              [Second; First; First; Second] H) as (U1 & U2 & R1 & R2 & _).
  split; [exact H |].
  split; [vm_compute; reflexivity |].
  split; [vm_compute; reflexivity |].
  split; [vm_compute; reflexivity |].
  split; [exact U1 |]. split; [exact U2 |].
  split; [apply R1; vm_compute; lia | apply R2; vm_compute; lia].
Defined.

(** * Further properties of the handlers *)

(** ** What every handler guarantees *)
Section Guarantees.
Context {W : Type} (D : Driver W).



(** X2.  list-databases, list-tables, get-table-schema, execute-query and
    get-database-schema leave the registry exactly as they found it,
    whether they succeed or fail and whatever the driver does. *)
Theorem readers_keep_registry (id table query : string) (s : state W) :
  dbConnections (snd (run D (list_databases id) s)) = dbConnections s
  /\ dbConnections (snd (run D (list_tables id) s)) = dbConnections s
  /\ dbConnections (snd (run D (get_table_schema id table) s)) = dbConnections s
  /\ dbConnections (snd (run D (execute_query id query) s)) = dbConnections s
  /\ dbConnections (snd (run D (get_database_schema id) s)) = dbConnections s.
Proof.
  destruct (readers_are_read_only id table query) as (H1 & H2 & H3 & H4 & H5).
  repeat split; apply run_keeps_registry; assumption.
Qed.
End Guarantees.

(** ** Opening and closing *)
Section Lifecycle.
Context {W : Type} (D : Driver W).

(** X3.  connect-database with a [dbType] other than mysql, postgresql
    and sqlite fails with the message naming that type.  No native
    connection is opened and nothing is registered; the only effect is
    that the credentials were already saved when [rememberCredentials] is
    set, since the handler saves them before it looks at the type. *)
Theorem connect_database_unsupported (i : connectionInfo) (s : state W) :
  info_dbType i <> "mysql" ->
  info_dbType i <> "postgresql" ->
  info_dbType i <> "sqlite" ->
  run D (connect_database i) s
  = (inr (Failure ("Unsupported database type: " ++ info_dbType i)),
     if rememberCredentials i
     then with_world s (store_set D "dbCredentials" (info_object i) (world s))
     else s).
Proof.
  intros H1 H2 H3. unfold connect_database, switch.
  apply String.eqb_neq in H1, H2, H3. rewrite H1, H2, H3.
  destruct (rememberCredentials i); reflexivity.
Qed.

(** X4.  A connect-database that reports a failure, for whatever reason,
    has registered nothing: the registry is as it was. *)
Theorem connect_database_failure_registers_nothing
    (i : connectionInfo) (s s1 : state W) (msg : string) :
  run D (connect_database i) s = (inr (Failure msg), s1) ->
  dbConnections s1 = dbConnections s.
Proof.
  unfold connect_database. rewrite run_try_catch, run_bind.
  pose proof (run_keeps_registry D _ s (read_only_open i)) as [Hreg _].
  rewrite run_bind in Hreg.
  destruct (run D (if rememberCredentials i then _ else _) s) as [[e0 | []] s0].
  - simpl in *. intros Hrun; inversion Hrun; subst. exact Hreg.
  - rewrite run_bind.
    destruct (run D (switch _ _ _ _ _) s0) as [[e | c] s'].
    + simpl in *. intros Hrun; inversion Hrun; subst. exact Hreg.
    + simpl. discriminate.
Qed.

(** X5.  Opening a connection under an identifier the registry did not
    hold and then closing it, the native close succeeding, gives back the
    registry as it was before the open. *)
Theorem open_then_close_restores_registry
    (i : connectionInfo) (id : string) (e : entry) (s s1 s2 : state W) :
  dbConnections s !! id = None ->
  run D (connect_database i) s = (inr (Success id), s1) ->
  dbConnections s1 !! id = Some e ->
  run D (release (Some (dbType e)) (connection e)) s1 = (inr tt, s2) ->
  exists s3,
    run D (close_connection id) s1 = (inr (Success tt), s3)
    /\ dbConnections s3 = dbConnections s.
Proof.
  intros Hfresh Hopen He Hrel.
  apply connect_database_registers in Hopen as [_ [c Hreg]].
  eexists. rewrite (run_close_connection_own D id e s1 He), Hrel.
  split; [reflexivity |]. simpl.
  rewrite (release_keeps_registry D _ _ _ _ _ Hrel), Hreg.
  apply delete_insert_id. exact Hfresh.
Qed.

(** X6.  Once close-connection has succeeded on a live entry, every later
    operation on that identifier is refused: each of the six handlers
    returns a failure and does nothing. *)
Theorem closed_identifier_is_refused
    (id database table query : string) (e : entry) (s s1 : state W) :
  is_prototype_key id = false ->
  dbConnections s !! id = Some e ->
  run D (close_connection id) s = (inr (Success tt), s1) ->
  run D (list_databases id) s1 = (inr (Failure destructure_undefined), s1)
  /\ run D (use_database id database) s1 = (inr (Failure destructure_undefined), s1)
  /\ run D (list_tables id) s1 = (inr (Failure destructure_undefined), s1)
  /\ run D (get_table_schema id table) s1 = (inr (Failure destructure_undefined), s1)
  /\ run D (execute_query id query) s1 = (inr (Failure destructure_undefined), s1)
  /\ run D (get_database_schema id) s1 = (inr (Failure destructure_undefined), s1).
Proof.
  intros Hid He. rewrite (run_close_connection_own D id e s He).
  destruct (run D (release _ _) s) as [[err | []] s']; [discriminate |].
  intros Hrun; inversion Hrun; subst; clear Hrun.
  match goal with |- context [run D _ ?st] => set (s1 := st) end.
  assert (H : lookup_connection s1 id = Undefined).
  { unfold lookup_connection, s1. simpl. rewrite lookup_delete_eq, Hid. reflexivity. }
  repeat split;
    unfold list_databases, use_database, list_tables, get_table_schema, execute_query,
      get_database_schema;
    rewrite run_try_catch, run_bind, (run_resolve_undefined D id s1 H);
    reflexivity.
Qed.
End Lifecycle.

(** ** Programs whose events all pass a test *)
Section EveryEvent.
Context {W : Type} (D : Driver W).

Lemma every_event_bind {A B} ok (p : prog A) (f : A -> prog B) :
  every_event ok p -> (forall a, every_event ok (f a)) -> every_event ok (bind p f).
Proof.
  intros Hp Hf. induction Hp; simpl; auto using @every_event.
Qed.

Lemma every_event_perform {X} ok (ev : event X) :
  ok X ev = true -> every_event ok (perform ev).
Proof.
  intros H. apply every_event_Do; [exact H |]. intros [e | x]; constructor.
Qed.

Lemma every_event_try_catch {A} ok (p : prog A) (h : js_error -> prog A) :
  every_event ok p -> (forall e, every_event ok (h e)) -> every_event ok (try_catch p h).
Proof.
  intros Hp Hh. induction Hp; simpl; auto using @every_event.
Qed.

(** An invariant of the state that every permitted event keeps is kept by
    the whole run. *)
Lemma every_event_run {A} ok (I : state W -> state W -> Prop) (p : prog A) :
  (forall s, I s s) ->
  (forall s1 s2 s3, I s1 s2 -> I s2 s3 -> I s1 s3) ->
  (forall X (ev : event X) s, ok X ev = true -> I s (snd (handle D ev s))) ->
  every_event ok p ->
  forall s, I s (snd (run D p s)).
Proof.
  intros Hrefl Htrans Hstep Hp.
  induction Hp as [a | e | X ev k Hev Hk IH]; intros s; simpl; auto.
  eapply Htrans; [apply Hstep; exact Hev | apply IH].
Qed.

Lemma lookup_connection_Own (s : state W) (id : string) (e : entry) :
  lookup_connection s id = Own e -> dbConnections s !! id = Some e.
Proof.
  unfold lookup_connection. destruct (dbConnections s !! id); [congruence |].
  destruct (is_prototype_key id); discriminate.
Qed.

Lemma handle_touches_only {X} (id id' : string) (ev : event X) (s : state W) :
  id' <> id ->
  touches_only id X ev = true ->
  dbConnections (snd (handle D ev s)) !! id' = dbConnections s !! id'.
Proof.
  intros Hne. destruct ev; simpl; intros H; try discriminate; auto.
  - apply String.eqb_eq in H. subst.
    destruct (lookup_connection s id); simpl; auto.
    apply lookup_insert_ne. congruence.
  - apply String.eqb_eq in H. subst. apply lookup_delete_ne. congruence.
Qed.

Lemma handle_reads_or_swaps {X} (id : string) (ev : event X) (s : state W) :
  reads_or_swaps id X ev = true ->
  kinds (dbConnections (snd (handle D ev s))) = kinds (dbConnections s).
Proof.
  destruct ev; simpl; intros H; try discriminate; auto.
  destruct (lookup_connection s connectionId) as [| e |] eqn:Hl; simpl; auto.
  apply lookup_connection_Own in Hl. unfold kinds.
  rewrite fmap_insert. apply insert_id. rewrite lookup_fmap, Hl. reflexivity.
Qed.
End EveryEvent.

Ltac prove_every_event :=
  repeat (intros;
          match goal with
          | |- every_event _ (perform _) => apply every_event_perform; simpl;
                                            rewrite ?String.eqb_refl; reflexivity
          | |- every_event _ (bind _ _) => apply every_event_bind
          | |- every_event _ (Ret _) => constructor
          | |- every_event _ (Throw _) => constructor
          | |- every_event _ (try_catch _ _) => apply every_event_try_catch
          | |- every_event _ (match ?x with _ => _ end) => destruct x
          end).

(** ** One identifier at a time *)
Section Frame.
Context {W : Type} (D : Driver W).

Lemma use_database_swaps_only (id database : string) :
  every_event (reads_or_swaps id) (use_database id database).
Proof.
  unfold use_database, resolve, destructure, report, switch. prove_every_event.
Qed.

Lemma use_database_touches_only (id database : string) :
  every_event (touches_only id) (use_database id database).
Proof.
  unfold use_database, resolve, destructure, report, switch. prove_every_event.
Qed.

Lemma close_connection_touches_only (id : string) :
  every_event (touches_only id) (close_connection id).
Proof.
  unfold close_connection, release, destructure, report, switch. prove_every_event.
Qed.

(** X7.  close-connection and use-database on one identifier leave the
    entry of every other identifier as it was, whatever the driver does
    and whether or not they succeed. *)
Theorem other_entries_untouched (id id' database : string) (s : state W) :
  id' <> id ->
  dbConnections (snd (run D (close_connection id) s)) !! id' = dbConnections s !! id'
  /\ dbConnections (snd (run D (use_database id database) s)) !! id' = dbConnections s !! id'.
Proof.
  intros Hne. split.
  - apply (every_event_run D (touches_only id)
             (fun s1 s2 => dbConnections s2 !! id' = dbConnections s1 !! id'));
      [reflexivity | intros; congruence | | apply close_connection_touches_only].
    intros X ev s0 Hev. apply (handle_touches_only D id id' ev s0 Hne Hev).
  - apply (every_event_run D (touches_only id)
             (fun s1 s2 => dbConnections s2 !! id' = dbConnections s1 !! id'));
      [reflexivity | intros; congruence | | apply use_database_touches_only].
    intros X ev s0 Hev. apply (handle_touches_only D id id' ev s0 Hne Hev).
Qed.

(** X8.  use-database never changes which identifiers are registered nor
    the kind any of them is registered with: on every driver and state,
    success or failure, the map from identifier to [dbType] is the same
    afterwards. *)
Theorem use_database_keeps_kinds (id database : string) (s : state W) :
  kinds (dbConnections (snd (run D (use_database id database) s)))
  = kinds (dbConnections s).
Proof.
  apply (every_event_run D (reads_or_swaps id)
           (fun s1 s2 => kinds (dbConnections s2) = kinds (dbConnections s1)));
    [reflexivity | intros; congruence | | apply use_database_swaps_only].
  intros X ev s0 Hev. apply (handle_reads_or_swaps D id ev s0 Hev).
Qed.
End Frame.

(** ** Queries and the schema text *)
Section Text.
Context {W : Type} (D : Driver W).



(** X9.  execute-query sends the caller's SQL text as it is to the
    entry's native connection and returns what comes back as it is: the
    rows on success, the driver's own error message on failure.  The
    registry is not touched. *)
Theorem execute_query_passes_through (id query : string) (c : conn) (s : state W) :
  (dbConnections s !! id = Some (Entry c "mysql") ->
   run D (execute_query id query) s =
   match mysql_query D c query (world s) with
   | (inl e, w) => (inr (Failure (message e)), with_world s w)
   | (inr rows, w) => (inr (Success (Some rows)), with_world s w)
   end)
  /\ (dbConnections s !! id = Some (Entry c "postgresql") ->
      run D (execute_query id query) s =
      match Pool_query D c query [] (world s) with
      | (inl e, w) => (inr (Failure (message e)), with_world s w)
      | (inr rows, w) => (inr (Success (Some rows)), with_world s w)
      end)
  /\ (dbConnections s !! id = Some (Entry c "sqlite") ->
      run D (execute_query id query) s =
      match Database_all D c query (world s) with
      | (inl e, w) => (inr (Failure (message e)), with_world s w)
      | (inr rows, w) => (inr (Success (Some rows)), with_world s w)
      end).
Proof.
  repeat split; intros He; unfold execute_query;
    rewrite run_try_catch, run_bind, (run_resolve_own D id _ s He);
    simpl; unfold lift;
    match goal with
    | |- context [mysql_query D ?a ?b ?w] => destruct (mysql_query D a b w) as [[e | rows] w1]
    | |- context [Pool_query D ?a ?b ?p ?w] =>
        destruct (Pool_query D a b p w) as [[e | rows] w1]
    | |- context [Database_all D ?a ?b ?w] => destruct (Database_all D a b w) as [[e | rows] w1]
    end; reflexivity.
Qed.

(** X10.  A SQLite entry has the one database [main]: list-databases
    returns it and use-database succeeds for any name at all, and neither
    calls the driver or changes anything. *)
Theorem sqlite_single_database (id database : string) (c : conn) (s : state W) :
  dbConnections s !! id = Some (Entry c "sqlite") ->
  run D (list_databases id) s = (inr (Success [VStr "main"]), s)
  /\ run D (use_database id database) s = (inr (Success tt), s).
Proof.
  intros He. split; unfold list_databases, use_database;
    rewrite run_try_catch, run_bind, (run_resolve_own D id _ s He); reflexivity.
Qed.

Lemma run_get_database_schema_own (id : string) (e : entry) (s : state W)
    (tables : conn -> prog (list jsval))
    (describe : conn -> jsval -> string -> prog string) :
  dbConnections s !! id = Some e ->
  introspects (dbType e) tables describe ->
  run D (get_database_schema id) s =
  match run D (let! ts := tables (connection e) in for_of ts (describe (connection e)) "") s with
  | (inl err, s1) =>
      (inr (Failure (if String.eqb (message err) ""
                     then "An error occurred while retrieving the database schema"
                     else message err)), s1)
  | (inr text, s1) => (inr (Success {| schema := text; schema_dbType := dbType e |}), s1)
  end.
Proof.
  intros He Hkind. unfold get_database_schema.
  rewrite run_try_catch, run_bind, (run_resolve_own D id e s He).
  cbn [fst snd]. rewrite run_bind.
  destruct e as [c kind]. cbn [dbType connection] in *.
  inversion Hkind; subst; cbn [switch String.eqb Ascii.eqb Bool.eqb];
    match goal with |- context [run D ?p s] => destruct (run D p s) as [[err | text] s1] end;
    reflexivity.
Qed.

(** X11.  get-database-schema on a MySQL connection with no database
    selected fails with 'No database selected' after the first statement:
    SHOW TABLES is never sent. *)
Theorem get_database_schema_no_database_selected
    (id : string) (c : conn) (s : state W) (row : jsobj) (rows : list jsobj) (w : W) :
  dbConnections s !! id = Some (Entry c "mysql") ->
  mysql_query D c "SELECT DATABASE() as db" (world s) = (inr (row :: rows), w) ->
  truthy (get_prop row "db") = false ->
  run D (get_database_schema id) s
  = (inr (Failure "No database selected"), with_world s w).
Proof.
  intros He Hq Hdb.
  rewrite (run_get_database_schema_own id _ s _ _ He introspects_mysql).
  unfold mysql_tables. simpl. unfold lift. rewrite Hq. simpl. rewrite Hdb. reflexivity.
Qed.

(** X12.  When the listing finds no table, get-database-schema succeeds
    with the empty text. *)
Theorem get_database_schema_no_tables
    (id : string) (e : entry) (s s1 : state W)
    (tables : conn -> prog (list jsval))
    (describe : conn -> jsval -> string -> prog string) :
  dbConnections s !! id = Some e ->
  introspects (dbType e) tables describe ->
  run D (tables (connection e)) s = (inr [], s1) ->
  run D (get_database_schema id) s
  = (inr (Success {| schema := ""; schema_dbType := dbType e |}), s1).
Proof.
  intros He Hkind Hts.
  rewrite (run_get_database_schema_own id e s tables describe He Hkind).
  rewrite run_bind, Hts. reflexivity.
Qed.



End Text.

(** ** The further properties at work on the reference driver *)

Lemma connect_database_unsupported_witness :
  run Engine.driver (connect_database Sample.oracle_info) Fixture.fresh
  = (inr (Failure "Unsupported database type: oracle"),
     with_world Fixture.fresh
       (Engine.store_save "dbCredentials" (info_object Sample.oracle_info) Fixture.servers)).
Proof.
  apply (connect_database_unsupported Engine.driver Sample.oracle_info Fixture.fresh);
    discriminate.
Defined.

Lemma connect_database_failure_registers_nothing_witness :
  run Engine.driver (connect_database Sample.oracle_info) Fixture.pg_open
  = (inr (Failure "Unsupported database type: oracle"),
     snd (run Engine.driver (connect_database Sample.oracle_info) Fixture.pg_open))
  /\ dbConnections (snd (run Engine.driver (connect_database Sample.oracle_info)
                           Fixture.pg_open))
     = dbConnections Fixture.pg_open.
Proof.
  split; [vm_compute; reflexivity |].
  apply (connect_database_failure_registers_nothing Engine.driver Sample.oracle_info
           Fixture.pg_open _ "Unsupported database type: oracle").
  vm_compute; reflexivity.
Defined.

Lemma open_then_close_restores_registry_witness :
  let s1 := snd (run Engine.driver (connect_database (Fixture.sqlite_info "./fixture.db"))
                   Fixture.fresh) in
  dbConnections s1 !! "1700000000000" = Some (Entry 0 "sqlite")
  /\ exists s3,
       run Engine.driver (close_connection "1700000000000") s1 = (inr (Success tt), s3)
       /\ dbConnections s3 = dbConnections Fixture.fresh.
Proof.
  cbv zeta. split; [vm_compute; reflexivity |].
  eapply (open_then_close_restores_registry Engine.driver
            (Fixture.sqlite_info "./fixture.db") "1700000000000" (Entry 0 "sqlite")
            Fixture.fresh);
    vm_compute; reflexivity.
Defined.

Lemma closed_identifier_is_refused_witness :
  let s1 := snd (run Engine.driver (close_connection Fixture.connectionId)
                   Fixture.sqlite_open) in
  run Engine.driver (close_connection Fixture.connectionId) Fixture.sqlite_open
  = (inr (Success tt), s1)
  /\ run Engine.driver (list_tables Fixture.connectionId) s1
     = (inr (Failure destructure_undefined), s1)
  /\ run Engine.driver (execute_query Fixture.connectionId Fixture.select_one) s1
     = (inr (Failure destructure_undefined), s1).
Proof.
  cbv zeta. split; [vm_compute; reflexivity |].
  pose proof (closed_identifier_is_refused Engine.driver Fixture.connectionId "main"
                "users" Fixture.select_one (Entry 0 "sqlite") Fixture.sqlite_open
                (snd (run Engine.driver (close_connection Fixture.connectionId)
                        Fixture.sqlite_open))
                ltac:(vm_compute; reflexivity) ltac:(vm_compute; reflexivity)
                ltac:(vm_compute; reflexivity)) as T.
  split; apply T.
Defined.

Lemma other_entries_untouched_witness :
  let s1 := snd (run Engine.driver (close_connection "1700000000000") Sample.two_open) in
  let s2 := snd (run Engine.driver (use_database "1700000000000" "postgres")
                   Sample.two_open) in
  dbConnections s1 !! "1700000000000" = None
  /\ dbConnections s2 !! "1700000000000" = Some (Entry 2 "postgresql")
  /\ dbConnections s1 !! "1700000000001" = Some (Entry 1 "sqlite")
  /\ dbConnections s2 !! "1700000000001" = Some (Entry 1 "sqlite").
Proof.
  cbv zeta. split; [vm_compute; reflexivity |]. split; [vm_compute; reflexivity |].
  destruct (other_entries_untouched Engine.driver "1700000000000" "1700000000001"
              "postgres" Sample.two_open ltac:(discriminate)) as [H1 H2].
  split; [rewrite H1 | rewrite H2]; vm_compute; reflexivity.
Defined.

Lemma execute_query_passes_through_witness :
  dbConnections Fixture.pg_open !! Fixture.connectionId = Some (Entry 0 "postgresql")
  /\ run Engine.driver (execute_query Fixture.connectionId Fixture.select_one)
       Fixture.pg_open
     = (inr (Success (Some [[("one", VNum 1)]])), Fixture.pg_open)
  /\ run Engine.driver (execute_query Fixture.connectionId "SELEC 1") Fixture.pg_open
     = (inr (Failure "syntax error"), Fixture.pg_open).
Proof.
  assert (H : dbConnections Fixture.pg_open !! Fixture.connectionId
              = Some (Entry 0 "postgresql")) by (vm_compute; reflexivity).
  split; [exact H |].
  split.
  - destruct (execute_query_passes_through Engine.driver Fixture.connectionId
                Fixture.select_one 0 Fixture.pg_open) as (_ & T & _).
    rewrite (T H). vm_compute; reflexivity.
  - destruct (execute_query_passes_through Engine.driver Fixture.connectionId
                "SELEC 1" 0 Fixture.pg_open) as (_ & T & _).
    rewrite (T H). vm_compute; reflexivity.
Defined.

Lemma sqlite_single_database_witness :
  run Engine.driver (list_databases Fixture.connectionId) Fixture.sqlite_open
  = (inr (Success [VStr "main"]), Fixture.sqlite_open)
  /\ run Engine.driver (use_database Fixture.connectionId "no such database")
       Fixture.sqlite_open
     = (inr (Success tt), Fixture.sqlite_open).
Proof.
  apply (sqlite_single_database Engine.driver Fixture.connectionId "no such database" 0
           Fixture.sqlite_open).
  vm_compute; reflexivity.
Defined.

Lemma get_database_schema_no_database_selected_witness :
  run Engine.driver (get_database_schema Fixture.connectionId) Sample.mysql_unselected
  = (inr (Failure "No database selected"),
     with_world Sample.mysql_unselected (world Sample.mysql_unselected)).
Proof.
  apply (get_database_schema_no_database_selected Engine.driver Fixture.connectionId 0
           Sample.mysql_unselected [("db", VNull)] []);
    vm_compute; reflexivity.
Defined.

Lemma get_database_schema_no_tables_witness :
  run Engine.driver (get_database_schema Fixture.connectionId) Sample.sqlite_empty
  = (inr (Success {| schema := ""; schema_dbType := "sqlite" |}), Sample.sqlite_empty).
Proof.
  apply (get_database_schema_no_tables Engine.driver Fixture.connectionId
           (Entry 0 "sqlite") Sample.sqlite_empty Sample.sqlite_empty
           sqlite_tables sqlite_table);
    [vm_compute; reflexivity | constructor | vm_compute; reflexivity].
Defined.


(** * Exports, shortcuts and profiles *)

Section Csv.

Lemma length_append (a b : string) :
  String.length (a ++ b) = (String.length a + String.length b)%nat.
Proof.
  induction a as [|x a IH]; [reflexivity|].
  change (S (String.length (a ++ b)) = S (String.length a + String.length b)).
  by rewrite IH.
Qed.

Lemma append_cancel_r (a b c : string) : a ++ c = b ++ c -> a = b.
Proof.
  revert b. induction a as [|x a IH]; intros [|y b] H.
  - reflexivity.
  - apply (f_equal String.length) in H. rewrite !length_append in H.
    cbn [String.length] in H. lia.
  - apply (f_equal String.length) in H. rewrite !length_append in H.
    cbn [String.length] in H. lia.
  - change (String x (a ++ c) = String y (b ++ c)) in H.
    injection H as -> H. by rewrite (IH b H).
Qed.

Lemma double_quotes_inj (a b : string) : double_quotes a = double_quotes b -> a = b.
Proof.
  revert b. induction a as [|x a IH]; intros [|y b] H; cbn [double_quotes] in H.
  - reflexivity.
  - destruct (Ascii.eqb y quote_char); discriminate.
  - destruct (Ascii.eqb x quote_char); discriminate.
  - destruct (Ascii.eqb x quote_char) eqn:Hx, (Ascii.eqb y quote_char) eqn:Hy.
    + apply Ascii.eqb_eq in Hx, Hy. subst. injection H as H. by rewrite (IH b H).
    + injection H as <- H. by rewrite Ascii.eqb_refl in Hy.
    + injection H as -> H. by rewrite Ascii.eqb_refl in Hx.
    + injection H as -> H. by rewrite (IH b H).
Qed.

Lemma str_includes_head (c : ascii) (s : string) :
  str_includes (String c s) (String c "") = true.
Proof.
  cbn [str_includes String.prefix]. destruct (ascii_dec c c); [|done].
  by destruct s.
Qed.

Lemma csv_text_inj (a b : string) : csv_text a = csv_text b -> a = b.
Proof.
  unfold csv_text.
  destruct (str_includes a "," || str_includes a quote || str_includes a nl) eqn:Ha,
           (str_includes b "," || str_includes b quote || str_includes b nl) eqn:Hb;
    intros H.
  - change (String quote_char (double_quotes a ++ quote)
            = String quote_char (double_quotes b ++ quote)) in H.
    injection H as H. by apply double_quotes_inj, (append_cancel_r _ _ quote).
  - subst b. change (quote ++ double_quotes a ++ quote)
      with (String quote_char (double_quotes a ++ quote)) in Hb.
    unfold quote in Hb at 3. rewrite str_includes_head in Hb.
    by rewrite orb_true_r in Hb.
  - subst a. change (quote ++ double_quotes b ++ quote)
      with (String quote_char (double_quotes b ++ quote)) in Ha.
    unfold quote in Ha at 3. rewrite str_includes_head in Ha.
    by rewrite orb_true_r in Ha.
  - exact H.
Qed.

Lemma occurrences_append (c : ascii) (a b : string) :
  occurrences c (a ++ b) = (occurrences c a + occurrences c b)%nat.
Proof.
  induction a as [|x a IH]; [reflexivity|].
  change (((if Ascii.eqb x c then 1 else 0) + occurrences c (a ++ b))%nat
          = ((if Ascii.eqb x c then 1 else 0) + occurrences c a + occurrences c b)%nat).
  rewrite IH. lia.
Qed.

Lemma occurrences_double_quotes (s : string) :
  occurrences quote_char (double_quotes s) = (2 * occurrences quote_char s)%nat.
Proof.
  induction s as [|x s IH]; [reflexivity|].
  cbn [double_quotes occurrences].
  destruct (Ascii.eqb x quote_char) eqn:Hx; cbn [occurrences].
  - rewrite Ascii.eqb_refl, IH. lia.
  - rewrite Hx, IH. lia.
Qed.

Lemma occurrences_not_included (c : ascii) (s : string) :
  str_includes s (String c "") = false -> occurrences c s = 0%nat.
Proof.
  induction s as [|x s IH]; [reflexivity|].
  cbn [str_includes String.prefix occurrences]. intros H.
  apply orb_false_iff in H as [H1 H2].
  destruct (ascii_dec c x) as [->|Hne].
  - by destruct s.
  - rewrite (IH H2). destruct (Ascii.eqb x c) eqn:Hx; [|reflexivity].
    apply Ascii.eqb_eq in Hx. congruence.
Qed.

Lemma csv_text_even (s : string) :
  Nat.even (occurrences quote_char (csv_text s)) = true.
Proof.
  unfold csv_text.
  destruct (str_includes s "," || str_includes s quote || str_includes s nl) eqn:Hs.
  - rewrite !occurrences_append, occurrences_double_quotes.
    change (occurrences quote_char quote) with 1%nat.
    replace (1 + (2 * occurrences quote_char s + 1))%nat
      with (2 * (occurrences quote_char s + 1))%nat by lia.
    apply Nat.even_spec. by eexists.
  - apply orb_false_iff in Hs as [Hs _]. apply orb_false_iff in Hs as [_ Hs].
    by rewrite (occurrences_not_included _ _ Hs).
Qed.

Lemma csv_value_even (v : jsval) :
  Nat.even (occurrences quote_char (csv_value v)) = true.
Proof. destruct v; try reflexivity; apply csv_text_even. Qed.

Lemma concat_comma_even (l : list string) :
  Forall (fun s => Nat.even (occurrences quote_char s) = true) l ->
  Nat.even (occurrences quote_char (String.concat "," l)) = true.
Proof.
  induction 1 as [|s l Hs Hl IH]; [reflexivity|].
  cbn [String.concat]. destruct l as [|s' l]; [exact Hs|].
  rewrite !occurrences_append, !Nat.even_add, Hs, IH. reflexivity.
Qed.

(** X14.  export-to-csv writes two different strings as two different
    fields: the quoting of a value with a comma, a quote or a line feed can
    be undone, and never gives the text of another value. *)
Theorem csv_distinct_strings (a b : string) :
  a <> b -> csv_value (VStr a) <> csv_value (VStr b).
Proof. intros Hne H. apply Hne, csv_text_inj, H. Qed.

(** X15.  In every data line export-to-csv writes, whatever the row
    holds, the quote character occurs an even number of times: a field is
    either free of quotes or enclosed in a pair with the inner ones
    doubled. *)
Theorem csv_row_quotes_are_paired (row : jsobj) :
  Nat.even (occurrences quote_char (csv_row row)) = true.
Proof.
  unfold csv_row. apply concat_comma_even.
  induction (values row) as [|v l IH]; constructor; [apply csv_value_even | exact IH].
Qed.

End Csv.

Section Exports.
Context {F : Type} (S : Shell F).

(** X16.  export-to-csv and export-to-json show the save dialog first.
    When the dialog yields no file, or the data has no rows, they answer
    with a failure (cancellation taking precedence) and the file system is
    as the dialog left it: nothing is written. *)
Theorem export_without_file_or_rows (data : list jsobj) (filename : jsval) (f : F) :
  (forall path f1,
     showSaveDialog S (csv_dialog filename) f = (inr path, f1) ->
     truthy path = false \/ data = [] ->
     export_to_csv S data filename f
     = (Failure (if truthy path then "No data to export" else "Export cancelled"), f1))
  /\ (forall path f1,
     showSaveDialog S (json_dialog filename) f = (inr path, f1) ->
     truthy path = false \/ data = [] ->
     export_to_json S data filename f
     = (Failure (if truthy path then "No data to export" else "Export cancelled"), f1)).
Proof.
  split; intros path f1 Hd Hc; unfold export_to_csv, export_to_json; rewrite Hd;
    destruct (truthy path); cbn [negb]; try reflexivity;
    destruct Hc as [Hc | ->]; [discriminate | reflexivity | discriminate | reflexivity].
Qed.
End Exports.

Section Shortcuts.
Context {W : Type} (D : Driver W).

Lemma str_includes_lower (type : string) (c : ascii) (rest : string) :
  no_lower type = true -> is_lower c = true -> str_includes type (String c rest) = false.
Proof.
  induction type as [|x type IH]; intros Hn Hc; [reflexivity|].
  cbn [no_lower] in Hn. apply andb_true_iff in Hn as [Hx Hn].
  cbn [str_includes String.prefix]. rewrite (IH Hn Hc).
  destruct (ascii_dec c x) as [->|]; [|reflexivity].
  rewrite Hc in Hx. discriminate.
Qed.

Lemma placeholder_upper (col : jsobj) (type : string) :
  get_prop col "type" = VStr type -> no_lower type = true -> placeholder col = inr "NULL".
Proof.
  intros Ht Hn. unfold placeholder. rewrite Ht.
  rewrite !(str_includes_lower type) by first [exact Hn | reflexivity].
  reflexivity.
Qed.

Lemma placeholders_upper (columns : list jsobj) :
  Forall (fun col => exists type, get_prop col "type" = VStr type /\ no_lower type = true)
         columns ->
  map_throwing placeholder columns = inr (map (fun _ => "NULL") columns).
Proof.
  induction 1 as [|col cols (type & Ht & Hn) _ IH]; [reflexivity|].
  cbn [map_throwing map]. rewrite (placeholder_upper col type Ht Hn), IH. reflexivity.
Qed.

(** X17.  [getValuePlaceholders] looks for lower-case type names only:
    for a schema whose column types contain no lower-case letter, every
    placeholder is NULL. *)
Theorem placeholders_are_case_sensitive (p : page) :
  currentTableSchema p <> [] ->
  Forall (fun col => exists type, get_prop col "type" = VStr type /\ no_lower type = true)
         (currentTableSchema p) ->
  getValuePlaceholders p
  = inr (String.concat ", " (map (fun _ => "NULL") (currentTableSchema p))).
Proof.
  unfold getValuePlaceholders. intros Hne Hall.
  apply placeholders_upper in Hall.
  destruct (currentTableSchema p) as [|col cols]; [done|].
  rewrite Hall. reflexivity.
Qed.

Lemma truthy_VStr (text : string) : text <> "" -> truthy (VStr text) = true.
Proof. intros Hne. cbn [truthy]. destruct (String.eqb_spec text ""); [done | reflexivity]. Qed.

Lemma postgresql_columns_have_no_key
    (id table : string) (c : conn) (s s1 : state W) (columns : list jsobj) :
  dbConnections s !! id = Some (Entry c "postgresql") ->
  run D (get_table_schema id table) s = (inr (Success columns), s1) ->
  find marks_primary_key columns = None.
Proof.
  intros He. rewrite (run_get_table_schema_own D id table _ s He).
  cbn [dbType connection switch String.eqb Ascii.eqb Bool.eqb].
  case_match; subst. case_match; try discriminate.
  intros Hs; inversion Hs; subst.
  match goal with H : run D _ s = _ |- _ => apply run_query_map in H as [rows ->] end.
  clear Hs. induction rows as [|row rows IH]; [reflexivity | exact IH].
Qed.

(** X18.  On a PostgreSQL connection the UPDATE and DELETE shortcuts,
    after a successful refresh of the schema, end in the placeholder
    [WHERE condition]: the columns get-table-schema returns never mark a
    primary key for [getPrimaryKeyCondition] to find. *)
Theorem shortcuts_postgresql_have_no_key
    (p : page) (id table : string) (c : conn) (s s1 : state W) (columns : list jsobj) :
  currentConnectionId p = Some id -> id <> "" ->
  currentTable p = Some table -> table <> "" ->
  dbConnections s !! id = Some (Entry c "postgresql") ->
  run D (get_table_schema id table) s = (inr (Success columns), s1) ->
  sql_update_btn D p s
  = ("UPDATE " ++ table ++ " SET column_name = new_value WHERE condition;",
     (with_schema p columns, s1))
  /\ sql_delete_btn D p s
     = ("DELETE FROM " ++ table ++ " WHERE condition;", (with_schema p columns, s1)).
Proof.
  intros Hid Hne Ht Hnt He Hrun.
  assert (Hu : updateTableSchema D p s = (with_schema p columns, s1)).
  { unfold updateTableSchema. rewrite Ht, Hid. cbn [is_set].
    rewrite (truthy_VStr _ Hne), (truthy_VStr _ Hnt), Hrun. reflexivity. }
  unfold sql_update_btn, sql_delete_btn. rewrite Ht. cbn [is_set].
  rewrite (truthy_VStr _ Hnt), Hu. cbn [fst].
  unfold getPrimaryKeyCondition. cbn [with_schema currentTableSchema].
  rewrite (postgresql_columns_have_no_key _ _ _ _ _ _ He Hrun).
  split; reflexivity.
Qed.

(** X19.  The disconnect button does not look at the answer of
    close-connection: when the native close fails, the handler reports the
    failure and keeps the entry, while the page forgets the identifier and
    goes back to the connection screen. *)
Theorem disconnect_forgets_open_connection
    (p : page) (id : string) (e : entry) (err : js_error) (s s1 : state W) :
  currentConnectionId p = Some id ->
  dbConnections s !! id = Some e ->
  run D (release (Some (dbType e)) (connection e)) s = (inl err, s1) ->
  run D (close_connection id) s = (inr (Failure (message err)), s1)
  /\ currentConnectionId (fst (disconnect_btn D true p s)) = None
  /\ currentScreen (fst (disconnect_btn D true p s)) = "connection-screen"
  /\ lookup_connection (snd (disconnect_btn D true p s)) id = Own e.
Proof.
  intros Hid He Hr.
  assert (Hc : run D (close_connection id) s = (inr (Failure (message err)), s1)).
  { rewrite (run_close_connection_own D id e s He), Hr. reflexivity. }
  unfold disconnect_btn, sent_identifier. rewrite Hid, Hc. cbn [fst snd currentConnectionId currentScreen].
  repeat split.
  unfold lookup_connection. rewrite (release_keeps_registry D _ _ _ _ _ Hr), He. reflexivity.
Qed.

End Shortcuts.

Section ProfileFacts.
Import Profiles.
Context {C F : Type}.

Lemma own_lookup_assign (k k' : string) (v : profile) (l : list (string * profile)) :
  own_lookup k' (own_assign k v l) = if String.eqb k k' then Some v else own_lookup k' l.
Proof.
  induction l as [|[k0 v0] l IH]; cbn [own_assign own_lookup].
  - reflexivity.
  - destruct (String.eqb_spec k0 k) as [->|Hne]; cbn [own_lookup].
    + destruct (String.eqb k k'); reflexivity.
    + rewrite IH. destruct (String.eqb_spec k0 k') as [->|]; [|reflexivity].
      destruct (String.eqb_spec k k'); [congruence | reflexivity].
Qed.

Lemma read_assign (k : string) (v : profile) (o : object) :
  read (assign k v o) k = Profile v.
Proof.
  unfold assign, read.
  destruct (own_lookup k (own o)) eqn:Hk; cbn [own proto].
  - by rewrite own_lookup_assign, String.eqb_refl.
  - destruct (String.eqb_spec k "__proto__") as [->|]; cbn [own proto].
    + rewrite Hk. reflexivity.
    + by rewrite own_lookup_assign, String.eqb_refl.
Qed.

Lemma own_assign_other (k k' : string) (v : profile) (o : object) :
  k' <> k -> own_lookup k' (own (assign k v o)) = own_lookup k' (own o).
Proof.
  intros Hne. unfold assign.
  destruct (own_lookup k (own o)); [|destruct (String.eqb k "__proto__")]; cbn [own];
    rewrite ?own_lookup_assign; try reflexivity;
    destruct (String.eqb_spec k k'); congruence.
Qed.

Lemma array_index_pretty (k : string) (n : N) : array_index k = Some n -> pretty n = k.
Proof.
  unfold array_index. destruct k; [discriminate|].
  destruct (digits 0 _) as [m|]; [|discriminate].
  destruct (String.eqb_spec (pretty m) (String a k)) as [Hm|]; [|discriminate].
  cbn [andb]. destruct (m <? 4294967295)%N; [|discriminate].
  intros [= <-]. exact Hm.
Qed.

Lemma elem_of_names (o : object) (k : string) : k ∈ names o <-> k ∈ map fst (own o).
Proof.
  unfold names. rewrite elem_of_app, list_elem_of_filter.
  change (map pretty ?l) with (pretty <$> l).
  rewrite list_elem_of_fmap. split.
  - intros [(n & -> & Hn) | [_ Hk]]; [|exact Hk].
    rewrite merge_sort_Permutation in Hn.
    apply list_elem_of_omap in Hn as (k & Hk & Hi).
    by rewrite (array_index_pretty k n Hi).
  - intros Hk. destruct (array_index k) as [n|] eqn:Hi; [left | right; done].
    exists n. split; [by rewrite (array_index_pretty k n Hi)|].
    rewrite merge_sort_Permutation. apply list_elem_of_omap. eauto.
Qed.

Lemma elem_of_own_assign (k k' : string) (v : profile) (l : list (string * profile)) :
  k' ∈ map fst (own_assign k v l) <-> k' ∈ map fst l \/ k' = k.
Proof.
  induction l as [|[k0 v0] l IH]; cbn [own_assign map fst].
  - rewrite list_elem_of_singleton. split; [auto|]. intros [H|H]; [inversion H | done].
  - destruct (String.eqb_spec k0 k) as [->|Hne]; cbn [map fst]; rewrite !elem_of_cons.
    + tauto.
    + rewrite IH. tauto.
Qed.

Variable K : Disk C F.

Lemma save_named (r : request) (d : data C) (f : F) :
  truthy (name r) = true ->
  save_connection_profile K (Some r) d f
  = (Success (name r),
     set_profiles K (assign (to_string (name r)) (settings r) (profiles_of d)) d f).
Proof. intros Hn. unfold save_connection_profile. rewrite Hn. reflexivity. Qed.

Lemma profiles_of_set (o : object) (d : data C) (f : F) :
  profiles_of (fst (set_profiles K o d f)) = o.
Proof. reflexivity. Qed.

(** X20.  A profile saved under a truthy name is the profile
    load-connection-profile returns for that name, whatever the store held
    before and whatever happens to the write to disk. *)
Theorem saved_profile_loads (r : request) (d : data C) (f : F) :
  truthy (name r) = true ->
  fst (save_connection_profile K (Some r) d f) = Success (name r)
  /\ load_connection_profile (name r) (fst (snd (save_connection_profile K (Some r) d f)))
     = Success (Profile (settings r)).
Proof.
  intros Hn. rewrite (save_named r d f Hn). cbn [fst snd]. split; [reflexivity|].
  unfold load_connection_profile. rewrite profiles_of_set, read_assign. reflexivity.
Qed.

(** X21.  Saving a profile leaves every profile stored under another
    name as it was. *)
Theorem save_keeps_other_profiles (r : request) (d : data C) (f : F) (k : string) (p : profile) :
  truthy (name r) = true ->
  k <> to_string (name r) ->
  own_lookup k (own (profiles_of d)) = Some p ->
  load_connection_profile (VStr k) (fst (snd (save_connection_profile K (Some r) d f)))
  = Success (Profile p).
Proof.
  intros Hn Hne Hk. rewrite (save_named r d f Hn). cbn [fst snd].
  unfold load_connection_profile. rewrite profiles_of_set. cbn [to_string].
  unfold read. rewrite (own_assign_other _ _ _ _ Hne), Hk. reflexivity.
Qed.

(** X22.  After a profile is saved under a name other than [__proto__],
    load-connection-profiles lists the names it listed before and the new
    one, and no other. *)
Theorem save_lists_the_name (r : request) (d : data C) (f : F) :
  truthy (name r) = true ->
  to_string (name r) <> "__proto__" ->
  exists before after,
    load_connection_profiles d = Success before
    /\ load_connection_profiles (fst (snd (save_connection_profile K (Some r) d f)))
       = Success after
    /\ forall k, k ∈ after <-> k ∈ before \/ k = to_string (name r).
Proof.
  intros Hn Hp. eexists _, _. split; [reflexivity|]. split; [reflexivity|].
  intros k. rewrite (save_named r d f Hn). cbn [fst snd].
  rewrite profiles_of_set, !elem_of_names. unfold assign.
  destruct (own_lookup _ _); [|destruct (String.eqb_spec (to_string (name r)) "__proto__")];
    cbn [own]; try done; apply elem_of_own_assign.
Qed.

(** X23.  A profile saved under the name [__proto__] in an object that
    has no property of that name is accepted and can be loaded, but
    load-connection-profiles does not list it: the assignment replaces the
    prototype of the object instead of adding a property. *)
Theorem proto_profile_is_not_listed (r : request) (d : data C) (f : F) :
  name r = VStr "__proto__" ->
  own_lookup "__proto__" (own (profiles_of d)) = None ->
  fst (save_connection_profile K (Some r) d f) = Success (name r)
  /\ load_connection_profiles (fst (snd (save_connection_profile K (Some r) d f)))
     = load_connection_profiles d
  /\ load_connection_profile (name r) (fst (snd (save_connection_profile K (Some r) d f)))
     = Success (Profile (settings r)).
Proof.
  intros Hn Ho.
  assert (Ht : truthy (name r) = true) by (rewrite Hn; reflexivity).
  rewrite (save_named r d f Ht). cbn [fst snd].
  unfold load_connection_profile, load_connection_profiles.
  rewrite profiles_of_set, read_assign, Hn. cbn [to_string].
  unfold assign. rewrite Ho. repeat split.
Qed.

(** X24.  save-connection-profile called without a profile, or with a
    name that is not truthy, answers with a failure and changes neither
    the store nor the disk. *)
Theorem save_refuses_without_a_name (profile : option request) (d : data C) (f : F) :
  match profile with Some r => truthy (name r) = false | None => True end ->
  is_success (fst (save_connection_profile K profile d f)) = false
  /\ snd (save_connection_profile K profile d f) = (d, f).
Proof.
  unfold save_connection_profile. destruct profile as [r|]; [intros -> | intros _];
    split; reflexivity.
Qed.

(** X25.  For a name that was never saved, in an object whose prototype
    was not replaced, load-connection-profile fails with "Profile not
    found" exactly when the name is not a member of Object.prototype; for
    [constructor], [toString] and the like it reports success with the
    inherited member. *)
Theorem unsaved_name_is_found_when_inherited (d : data C) (k : string) :
  own_lookup k (own (profiles_of d)) = None ->
  proto (profiles_of d) = None ->
  load_connection_profile (VStr k) d
  = if is_prototype_key k
    then Success (if String.eqb k "__proto__" then ObjectPrototype else Builtin k)
    else Failure "Profile not found".
Proof.
  intros Ho Hp. unfold load_connection_profile, read. cbn [to_string].
  rewrite Ho, Hp. unfold inherited. rewrite Hp.
  destruct (String.eqb_spec k "__proto__") as [->|]; [reflexivity|].
  destruct (is_prototype_key k); reflexivity.
Qed.

End ProfileFacts.

Section Persistence.
Import Profiles.
Context {C F F' : Type} (K : Disk C F) (K' : Disk C F').

(** X26.  The answer of save-connection-profile and the profiles kept in
    memory do not depend on the disk: [Store.save] drops the error of a
    failed write, so the handler reports success all the same. *)
Theorem save_answer_ignores_the_disk (profile : option request) (d : data C) (f : F) (f' : F') :
  fst (save_connection_profile K profile d f) = fst (save_connection_profile K' profile d f')
  /\ fst (snd (save_connection_profile K profile d f))
     = fst (snd (save_connection_profile K' profile d f')).
Proof.
  unfold save_connection_profile. destruct profile as [r|]; [|split; reflexivity].
  destruct (truthy (name r)); split; reflexivity.
Qed.
End Persistence.

Lemma csv_distinct_strings_witness :
  "x,y" <> quote ++ "x,y" ++ quote
  /\ csv_value (VStr "x,y") <> csv_value (VStr (quote ++ "x,y" ++ quote)).
Proof.
  assert (H : "x,y" <> quote ++ "x,y" ++ quote) by (vm_compute; discriminate).
  split; [exact H | apply (csv_distinct_strings "x,y" (quote ++ "x,y" ++ quote) H)].
Defined.

Lemma export_without_file_or_rows_witness :
  export_to_csv Desk.shell [] (VStr "users.csv")
    {| Desk.chosen := VStr "/tmp/users.csv"; Desk.written := [] |}
  = (Failure "No data to export",
     {| Desk.chosen := VStr "/tmp/users.csv"; Desk.written := [] |})
  /\ export_to_json Desk.shell [[("id", VNum 1)]] VUndefined
       {| Desk.chosen := VStr ""; Desk.written := [] |}
     = (Failure "Export cancelled", {| Desk.chosen := VStr ""; Desk.written := [] |}).
Proof.
  split.
  - apply (proj1 (export_without_file_or_rows Desk.shell [] (VStr "users.csv")
                    {| Desk.chosen := VStr "/tmp/users.csv"; Desk.written := [] |})
             (VStr "/tmp/users.csv"));
      [reflexivity | right; reflexivity].
  - apply (proj2 (export_without_file_or_rows Desk.shell [[("id", VNum 1)]] VUndefined
                    {| Desk.chosen := VStr ""; Desk.written := [] |})
             (VStr ""));
      [reflexivity | left; reflexivity].
Defined.

Lemma placeholders_are_case_sensitive_witness :
  getValuePlaceholders (with_schema browsing upper_case_columns) = inr "NULL, NULL".
Proof.
  apply (placeholders_are_case_sensitive (with_schema browsing upper_case_columns));
    [discriminate | repeat constructor; eexists; split; reflexivity].
Defined.

Lemma shortcuts_postgresql_have_no_key_witness :
  exists columns,
    map (fun column => get_prop column "name") columns = [VStr "id"; VStr "name"]
    /\ sql_update_btn Engine.driver browsing Fixture.pg_open
       = ("UPDATE users SET column_name = new_value WHERE condition;",
          (with_schema browsing columns, Fixture.pg_open))
    /\ sql_delete_btn Engine.driver browsing Fixture.pg_open
       = ("DELETE FROM users WHERE condition;",
          (with_schema browsing columns, Fixture.pg_open)).
Proof.
  eexists. split; [| apply (shortcuts_postgresql_have_no_key Engine.driver browsing
                             Fixture.connectionId "users" 0 Fixture.pg_open Fixture.pg_open);
                     [reflexivity | discriminate | reflexivity | discriminate
                     | vm_compute; reflexivity | vm_compute; reflexivity]].
  reflexivity.
Defined.

Lemma disconnect_forgets_open_connection_witness :
  run Engine.driver (close_connection Fixture.connectionId) Fixture.pg_ended
  = (inr (Failure "Called end on pool more than once"), Fixture.pg_ended)
  /\ currentConnectionId (fst (disconnect_btn Engine.driver true browsing Fixture.pg_ended))
     = None
  /\ currentScreen (fst (disconnect_btn Engine.driver true browsing Fixture.pg_ended))
     = "connection-screen"
  /\ lookup_connection (snd (disconnect_btn Engine.driver true browsing Fixture.pg_ended))
       Fixture.connectionId
     = Own (Entry 0 "postgresql").
Proof.
  apply (disconnect_forgets_open_connection Engine.driver browsing Fixture.connectionId
           (Entry 0 "postgresql") (Error "Called end on pool more than once")
           Fixture.pg_ended Fixture.pg_ended);
    [reflexivity | vm_compute; reflexivity | vm_compute; reflexivity].
Defined.

Lemma saved_profile_loads_witness :
  fst (Profiles.save_connection_profile Profiles.read_only_disk
         (Some (save_archive (VStr "archive"))) one_profile None)
  = Success (VStr "archive")
  /\ Profiles.load_connection_profile (VStr "archive")
       (fst (snd (Profiles.save_connection_profile Profiles.read_only_disk
                    (Some (save_archive (VStr "archive"))) one_profile None)))
     = Success (Profiles.Profile Profiles.archive).
Proof.
  apply (saved_profile_loads Profiles.read_only_disk (save_archive (VStr "archive"))
           one_profile None).
  reflexivity.
Defined.

Lemma save_keeps_other_profiles_witness :
  Profiles.load_connection_profile (VStr "local")
    (fst (snd (Profiles.save_connection_profile Profiles.disk
                 (Some (save_archive (VStr "archive"))) one_profile None)))
  = Success (Profiles.Profile Profiles.local).
Proof.
  apply (save_keeps_other_profiles Profiles.disk (save_archive (VStr "archive"))
           one_profile None "local" Profiles.local);
    [reflexivity | discriminate | reflexivity].
Defined.

Lemma save_lists_the_name_witness :
  exists before after,
    Profiles.load_connection_profiles one_profile = Success before
    /\ Profiles.load_connection_profiles
         (fst (snd (Profiles.save_connection_profile Profiles.disk
                      (Some (save_archive (VNum 7))) one_profile None)))
       = Success after
    /\ forall k, k ∈ after <-> k ∈ before \/ k = "7".
Proof.
  apply (save_lists_the_name Profiles.disk (save_archive (VNum 7)) one_profile None);
    [reflexivity | vm_compute; discriminate].
Defined.

Lemma proto_profile_is_not_listed_witness :
  fst (Profiles.save_connection_profile Profiles.disk
         (Some (save_archive (VStr "__proto__"))) one_profile None)
  = Success (VStr "__proto__")
  /\ Profiles.load_connection_profiles
       (fst (snd (Profiles.save_connection_profile Profiles.disk
                    (Some (save_archive (VStr "__proto__"))) one_profile None)))
     = Success ["local"]
  /\ Profiles.load_connection_profile (VStr "__proto__")
       (fst (snd (Profiles.save_connection_profile Profiles.disk
                    (Some (save_archive (VStr "__proto__"))) one_profile None)))
     = Success (Profiles.Profile Profiles.archive).
Proof.
  apply (proto_profile_is_not_listed Profiles.disk (save_archive (VStr "__proto__"))
           one_profile None);
    reflexivity.
Defined.

Lemma save_refuses_without_a_name_witness :
  is_success (fst (Profiles.save_connection_profile Profiles.disk
                     (Some (save_archive (VNum 0))) one_profile None)) = false
  /\ snd (Profiles.save_connection_profile Profiles.disk
            (Some (save_archive (VNum 0))) one_profile None)
     = (one_profile, None).
Proof.
  apply (save_refuses_without_a_name Profiles.disk (Some (save_archive (VNum 0)))
           one_profile None).
  reflexivity.
Defined.

Lemma unsaved_name_is_found_when_inherited_witness :
  Profiles.load_connection_profile (VStr "constructor") one_profile
  = Success (Profiles.Builtin "constructor").
Proof.
  apply (unsaved_name_is_found_when_inherited one_profile "constructor"); reflexivity.
Defined.
